(** * The fractalthorns API cache: purge, introspection, fetch cascades and persistence

    A shallow embedding of [src/fractalthorns_api.py] (class
    [FractalthornsAPI]): the in-memory cache tables, [purge_cache],
    [get_cached_items], the all-images and full-episodic fetches, and
    [__save_cache] / [__load_cache] over a model of the cache directory;
    further the fetches of one item (news, single image, single record, image
    description) and [split_message] of [src/fractalrhomb_globals.py].

    Conventions of the embedding.
    - [datetime] and [timedelta] are integers counting microseconds, the
      resolution of Python's [datetime].  The float of seconds written by
      [datetime.timestamp()] is an IEEE binary64 value, kept as a
      significand and a binary exponent; [fromtimestamp] splits and rounds
      it as CPython does, and fails as CPython does on a 64-bit Linux.
    - A Python [dict] is an insertion-ordered association list ([PyDict]):
      the code reads the first inserted value and iterates while mutating,
      and [json.dump] writes entries in insertion order.
    - Methods are computations in a state-and-exception monad [M] over a
      [World]: the object's attributes, the cache directory, standard output
      and the clock.  A raised exception keeps the mutations made before it.
    - The dataclasses of [src.fractalthorns_dataclasses] and PIL's image
      codec are imported by the module, not defined in it; they enter as the
      interface [Dataclasses]. *)

From Stdlib Require Import ZArith Lia Ascii String.
From stdpp Require Import base decidable option list strings gmap.

Local Open Scope string_scope.
Local Open Scope Z_scope.
Local Open Scope list_scope.

(** ** Time *)

Definition datetime := Z.
Definition timedelta := Z.

(** [dt.timedelta(hours=h)] *)
Definition timedelta_hours (h : Z) : timedelta := h * 3600 * 1000000.

(** ** Python dictionaries *)

Module PyDict.
Section ops.
Context {K V : Type} `{EqDecision K}.

(** [d.get(k)] *)
Fixpoint get (k : K) (d : list (K * V)) : option V :=
  match d with
  | [] => None
  | (k', v) :: d' => if decide (k = k') then Some v else get k d'
  end.

(** [k in d] *)
Definition mem (k : K) (d : list (K * V)) : bool :=
  match get k d with Some _ => true | None => false end.

(** [d.update({k: v})] and [d[k] = v]: an existing key keeps its position. *)
Fixpoint update (k : K) (v : V) (d : list (K * V)) : list (K * V) :=
  match d with
  | [] => [(k, v)]
  | (k', v') :: d' =>
      if decide (k = k') then (k, v) :: d' else (k', v') :: update k v d'
  end.

(** [d.pop(k)] for a key that is present. *)
Fixpoint pop (k : K) (d : list (K * V)) : list (K * V) :=
  match d with
  | [] => []
  | (k', v') :: d' => if decide (k = k') then d' else (k', v') :: pop k d'
  end.

(** A dict display or comprehension: the pairs are stored left to right. *)
Definition of_list (l : list (K * V)) : list (K * V) :=
  fold_left (fun d kv => update kv.1 kv.2 d) l [].

Definition keys (d : list (K * V)) : list K := d.*1.
Definition values (d : list (K * V)) : list V := d.*2.
End ops.
End PyDict.

Abbreviation dict K V := (list (K * V)) (only parsing).

(** ** Exceptions and the method monad *)

(** [FractalthornsAPI.InvalidPurgeReasons] *)
Inductive InvalidPurgeReasons := CACHE_PURGE | INVALID_CACHE.

Inductive exn :=
| JSONDecodeError
| ValueError
| TypeError
| KeyError
| OverflowError
| RuntimeError
| StopIteration
| AttributeError
| NameError
| OSError
| ClientError
| CachePurgeError (reason : InvalidPurgeReasons) (allowed_at : option datetime)
| CacheFetchError.

(** [json.decoder.JSONDecodeError] is a subclass of [ValueError]. *)
Definition is_ValueError (e : exn) : bool :=
  match e with JSONDecodeError | ValueError => true | _ => false end.

Inductive PyResult (A : Type) :=
| Ok (a : A)
| Raise (e : exn).
Arguments Ok {A} a.
Arguments Raise {A} e.

(** [FractalthornsAPI.CacheTypes] *)
Inductive CacheTypes :=
| NEWS_ITEMS
| IMAGES
| IMAGE_CONTENTS
| IMAGE_DESCRIPTIONS
| CHAPTERS
| RECORDS
| RECORD_CONTENTS
| SEARCH_RESULTS
| FULL_RECORD_CONTENTS
| CACHE_METADATA.

#[global] Instance CacheTypes_eq_dec : EqDecision CacheTypes.
Proof. solve_decision. Defined.

Definition CacheTypes_value (c : CacheTypes) : string :=
  match c with
  | NEWS_ITEMS => "news"
  | IMAGES => "images"
  | IMAGE_CONTENTS => "image contents"
  | IMAGE_DESCRIPTIONS => "image descriptions"
  | CHAPTERS => "chapters"
  | RECORDS => "records"
  | RECORD_CONTENTS => "record contents"
  | SEARCH_RESULTS => "search results"
  | FULL_RECORD_CONTENTS => "full record contents"
  | CACHE_METADATA => "cache metadata"
  end.

(** Iteration order of the enum. *)
Definition CacheTypes_all : list CacheTypes :=
  [NEWS_ITEMS; IMAGES; IMAGE_CONTENTS; IMAGE_DESCRIPTIONS; CHAPTERS; RECORDS;
   RECORD_CONTENTS; SEARCH_RESULTS; FULL_RECORD_CONTENTS; CACHE_METADATA].

(** [CacheTypes(s)]: lookup by value, [ValueError] for an unknown value. *)
Definition CacheTypes_of_value (s : string) : PyResult CacheTypes :=
  match List.find (fun c => bool_decide (CacheTypes_value c = s)) CacheTypes_all with
  | Some c => Ok c
  | None => Raise ValueError
  end.

(** [__CACHE_DURATION]; the table has no entry for [CACHE_METADATA]. *)
Definition CACHE_DURATION (c : CacheTypes) : option timedelta :=
  match c with
  | NEWS_ITEMS => Some (timedelta_hours 12)
  | IMAGES => Some (timedelta_hours 12)
  | IMAGE_CONTENTS => Some (timedelta_hours 72)
  | IMAGE_DESCRIPTIONS => Some (timedelta_hours 72)
  | CHAPTERS => Some (timedelta_hours 12)
  | RECORDS => Some (timedelta_hours 12)
  | RECORD_CONTENTS => Some (timedelta_hours 72)
  | SEARCH_RESULTS => Some (timedelta_hours 12)
  | FULL_RECORD_CONTENTS => Some (timedelta_hours 730)
  | CACHE_METADATA => None
  end.

(** [__CACHE_PURGE_COOLDOWN]; again without [CACHE_METADATA]. *)
Definition CACHE_PURGE_COOLDOWN (c : CacheTypes) : option timedelta :=
  match c with
  | NEWS_ITEMS => Some (timedelta_hours 1)
  | IMAGES => Some (timedelta_hours 1)
  | IMAGE_CONTENTS => Some (timedelta_hours 3)
  | IMAGE_DESCRIPTIONS => Some (timedelta_hours 3)
  | CHAPTERS => Some (timedelta_hours 1)
  | RECORDS => Some (timedelta_hours 1)
  | RECORD_CONTENTS => Some (timedelta_hours 3)
  | SEARCH_RESULTS => Some (timedelta_hours 1)
  | FULL_RECORD_CONTENTS => Some (timedelta_hours 24)
  | CACHE_METADATA => None
  end.

(** ** Python floats *)

(** A finite [float]: the number [significand × 2 ^ exponent].  A double
    has a significand below [2 ^ 53] in absolute value and no exponent below
    [-1074]. *)
Record float := mkFloat { significand : Z; exponent : Z }.

(** [a / b] rounded to the nearest integer, a tie to the even one
    ([b > 0]). *)
Definition round_half_even (a b : Z) : Z :=
  let q := a / b in
  let r := a mod b in
  if 2 * r <? b then q
  else if b <? 2 * r then q + 1
  else if Z.even q then q else q + 1.

(** [floor(log2(|n| / d))] for [n <> 0] and [d > 0]. *)
Definition ilog2_ratio (n d : Z) : Z :=
  let j := Z.log2 (Z.abs n) - Z.log2 d in
  if (if 0 <=? j then d * 2 ^ j <=? Z.abs n else d <=? Z.abs n * 2 ^ (- j))
  then j else j - 1.

(** The double nearest to [n × 2 ^ e / d], a tie to the even significand
    ([d > 0]): 53 bits of significand, and the exponent of the subnormal
    numbers where the value is below the normal ones.  The values that the
    cache computes are far below the overflow threshold of a double. *)
Definition round_to_double (n d e : Z) : float :=
  if n =? 0 then mkFloat 0 0
  else
    let e' := Z.max (ilog2_ratio n d + e - 52) (-1074) in
    mkFloat (if e' <=? e then round_half_even (n * 2 ^ (e - e')) d
             else round_half_even n (d * 2 ^ (e' - e))) e'.

(** [timedelta.total_seconds()] of a count of microseconds: the true
    division [us / 10**6] of two integers, correctly rounded. *)
Definition total_seconds (us : Z) : float := round_to_double us 1000000 0.

(** The two results of C's [modf]: the integral part, towards zero, and the
    fractional part. *)
Definition float_trunc (x : float) : Z :=
  if 0 <=? exponent x then significand x * 2 ^ exponent x
  else Z.quot (significand x) (2 ^ (- exponent x)).

Definition float_frac (x : float) : float :=
  if 0 <=? exponent x then mkFloat 0 0
  else mkFloat (Z.rem (significand x) (2 ^ (- exponent x))) (exponent x).

(** [x * k] in double arithmetic, for an integer [k] that is a double. *)
Definition float_mul (x : float) (k : Z) : float :=
  round_to_double (significand x * k) 1 (exponent x).

(** [_PyTime_RoundHalfEven]: the nearest integer, a tie to the even one. *)
Definition PyTime_RoundHalfEven (x : float) : Z :=
  if 0 <=? exponent x then significand x * 2 ^ exponent x
  else round_half_even (significand x) (2 ^ (- exponent x)).

(** [_PyTime_DoubleToDenominator(d, &sec, &numerator, 1e6, ROUND_HALF_EVEN)]
    before its range check: the seconds and the microseconds of a float
    timestamp. *)
Definition PyTime_DoubleToDenominator (d : float) : Z * Z :=
  let intpart := float_trunc d in
  let floatpart := PyTime_RoundHalfEven (float_mul (float_frac d) 1000000) in
  if 1000000 <=? floatpart then (intpart + 1, floatpart - 1000000)
  else if floatpart <? 0 then (intpart - 1, floatpart + 1000000)
  else (intpart, floatpart).

(** ** Decoded JSON *)

#[local] Set Warnings "-register-all".

(** What [json.load] returns: a number written without fraction or exponent
    is an [int], any other number a [float]; [NaN], [Infinity] and
    [-Infinity] are accepted. *)
Inductive json :=
| JNull
| JBool (b : bool)
| JInt (n : Z)
| JFloat (x : float)
| JNaN
| JInfinity (negative : bool)
| JString (s : string)
| JArray (l : list json)
| JObject (d : list (string * json)).

(** The image object of the [single_image] / [all_images] endpoints and of
    [asdict(ftd.Image)]: the fields the cache reads or rewrites are named. *)
Record ImageObj := mkImageObj {
  io_name : string;
  io_image_url : string;
  io_thumb_url : string;
  io_fields : json }.

(** A chapter object of the [full_episodic] endpoint. *)
Record ChapterObj := mkChapterObj {
  co_name : string;
  co_fields : json }.

(** [asdict(ftd.RecordText)]: it has a ["title"] entry. *)
Record RecordTextObj := mkRecordTextObj {
  rto_title : string;
  rto_fields : json }.

(** [datetime.timestamp()] of an aware datetime:
    [(self - epoch).total_seconds()], a float. *)
Definition timestamp (t : datetime) : json := JFloat (total_seconds t).

(** The first and the last microsecond of the years 1 to 9999. *)
Definition MIN_TIMESTAMP : Z := -62135596800 * 1000000.
Definition MAX_TIMESTAMP : Z := 253402300800 * 1000000 - 1.

(** The range of a 64-bit [time_t], and the seconds that glibc's [gmtime_r]
    converts: the years that fit the [int] field [tm_year]. *)
Definition TIME_T_MIN : Z := - 2 ^ 63.
Definition TIME_T_MAX : Z := 2 ^ 63 - 1.
Definition GMTIME_MIN : Z := -67768040609740800.
Definition GMTIME_MAX : Z := 67768036191676799.

(** [datetime_from_timet_and_us] with [gmtime]: where [gmtime_r] fails the
    error is an [OSError] (errno [EOVERFLOW]); a year outside 1..9999 is a
    [ValueError]. *)
Definition datetime_from_timet_and_us (sec us : Z) : PyResult datetime :=
  if (sec <? GMTIME_MIN) || (GMTIME_MAX <? sec) then Raise OSError
  else
    let t := sec * 1000000 + us in
    if (t <? MIN_TIMESTAMP) || (MAX_TIMESTAMP <? t) then Raise ValueError
    else Ok t.

(** [dt.datetime.fromtimestamp(x, tz=dt.UTC)] on a decoded JSON value.  A
    value that is not a number is a [TypeError], NaN a [ValueError], a number
    beyond [time_t] an [OverflowError] (a float passes that test up to
    [2 ** 63] included). *)
Definition fromtimestamp (x : json) : PyResult datetime :=
  match x with
  | JInt n =>
      if (n <? TIME_T_MIN) || (TIME_T_MAX <? n) then Raise OverflowError
      else datetime_from_timet_and_us n 0
  | JFloat d =>
      let (sec, us) := PyTime_DoubleToDenominator d in
      if (sec <? TIME_T_MIN) || (TIME_T_MAX + 1 <? sec) then Raise OverflowError
      else datetime_from_timet_and_us sec us
  | JBool b => datetime_from_timet_and_us (if b then 1 else 0) 0
  | JNaN => Raise ValueError
  | JInfinity _ => Raise OverflowError
  | _ => Raise TypeError
  end.

(** ** The imported dataclasses and image codec *)

Class Dataclasses := {
  ftd_NewsEntry : Type;
  ftd_Image : Type;
  ftd_ImageDescription : Type;
  ftd_Chapter : Type;
  ftd_Record : Type;
  ftd_RecordText : Type;
  ftd_SearchResult : Type;
  PIL_Image : Type;
  NewsEntry_from_obj : json -> PyResult ftd_NewsEntry;
  NewsEntry_asdict : ftd_NewsEntry -> json;
  Image_from_obj : ImageObj -> PyResult ftd_Image;
  Image_asdict : ftd_Image -> ImageObj;
  ImageDescription_from_obj : json -> PyResult ftd_ImageDescription;
  ImageDescription_asdict : ftd_ImageDescription -> json;
  Chapter_from_obj : ChapterObj -> PyResult ftd_Chapter;
  Chapter_asdict : ftd_Chapter -> ChapterObj;
  Chapter_records : ftd_Chapter -> list ftd_Record;
  Record_from_obj : json -> PyResult ftd_Record;
  Record_asdict : ftd_Record -> json;
  Record_name : ftd_Record -> string;
  Record_solved : ftd_Record -> bool;
  RecordText_from_obj : string -> RecordTextObj -> PyResult ftd_RecordText;
  RecordText_asdict : ftd_RecordText -> RecordTextObj;
  SearchResult_from_obj : json -> PyResult ftd_SearchResult;
  SearchResult_asdict : ftd_SearchResult -> json;
  (** [Image.open(BytesIO(b))] and the bytes [image.save(path)] writes *)
  PIL_open : list Byte.byte -> PyResult PIL_Image;
  PIL_save : PIL_Image -> list Byte.byte }.

(** The attributes of an [ftd.Image] that the single-item fetches read:
    [image.name] and [image.title]. *)
Class DataclassFields (ftd : Dataclasses) := {
  Image_name : ftd_Image -> string;
  Image_title : ftd_Image -> json }.

(** ** Strings and paths *)

(** [s.replace(a, b)] for single characters. *)
Fixpoint replace_char (a b : ascii) (s : string) : string :=
  match s with
  | EmptyString => EmptyString
  | String c s' => String (if decide (c = a) then b else c) (replace_char a b s')
  end.

(** [(s[: s.rindex(c)], s[s.rindex(c) + 1 :])], or [None] where [rindex]
    raises [ValueError] because [c] does not occur. *)
Fixpoint rsplit_char (c : ascii) (s : string) : option (string * string) :=
  match s with
  | EmptyString => None
  | String a s' =>
      match rsplit_char c s' with
      | Some (l, r) => Some (String a l, r)
      | None => if decide (a = c) then Some (EmptyString, s') else None
      end
  end.

(** The ancestors of a relative path, outermost first. *)
Fixpoint parent_dirs (seen : string) (s : string) : list string :=
  match s with
  | EmptyString => []
  | String c s' =>
      (if decide (c = "/"%char) then [seen] else [])
        ++ parent_dirs (seen +:+ String c EmptyString) s'
  end.

(** [Path(p).parent] of a path with a directory part. *)
Definition path_parent (p : string) : string :=
  List.last (parent_dirs EmptyString p) ".".

Definition CACHE_PATH : string := "__apicache__/cache_".
Definition CACHE_EXT : string := ".json".
Definition CACHE_BAK : string := ".bak".
Definition NONE_TOKEN : string := "__None__".

(** ["".join((CACHE_PATH, cache.value.replace(" ", "_")))] *)
Definition cache_dir_path (cache : CacheTypes) : string :=
  CACHE_PATH +:+ replace_char " "%char "_"%char (CacheTypes_value cache).

(** The same with [CACHE_EXT] appended. *)
Definition cache_file_path (cache : CacheTypes) : string :=
  cache_dir_path cache +:+ CACHE_EXT.

Definition image_file_path (cache_path name : string) : string :=
  cache_path +:+ "/image_" +:+ name +:+ ".png".
Definition thumb_file_path (cache_path name : string) : string :=
  cache_path +:+ "/thumb_" +:+ name +:+ ".png".

(** [[f(x) for x in l]] where [f] may raise. *)
Fixpoint list_comprehension {A B : Type} (f : A -> PyResult B) (l : list A)
    : PyResult (list B) :=
  match l with
  | [] => Ok []
  | x :: l' =>
      match f x with
      | Raise e => Raise e
      | Ok y => match list_comprehension f l' with
                | Raise e => Raise e
                | Ok ys => Ok (y :: ys)
                end
      end
  end.

(** [{k(x): v(x) for x in l}] where the key or the value may raise; [f]
    computes the key before the value. *)
Fixpoint dict_comprehension {A K V : Type} `{EqDecision K}
    (f : A -> PyResult (K * V)) (l : list A) (acc : list (K * V))
    : PyResult (list (K * V)) :=
  match l with
  | [] => Ok acc
  | x :: l' =>
      match f x with
      | Raise e => Raise e
      | Ok kv => dict_comprehension f l' (PyDict.update kv.1 kv.2 acc)
      end
  end.

(** Sequencing of two computations that may raise. *)
Definition and_then {A B : Type} (r : PyResult A) (k : A -> PyResult B) : PyResult B :=
  match r with Ok a => k a | Raise e => Raise e end.

(** ** The annotation loop of [get_cached_items] *)

(** A value of a copied table during the annotation loop: the stored pair
    [(value, cached_at)], or the triple the loop replaces it with. *)
Inductive item (V : Type) :=
| Cached (v : V) (cached_at : datetime)
| Annotated (v : V) (cached_at expires_at : datetime).
Arguments Cached {V} v cached_at.
Arguments Annotated {V} v cached_at expires_at.

(** [j[1]] *)
Definition item_cached_at {V} (j : item V) : datetime :=
  match j with Cached _ t | Annotated _ t _ => t end.

(** [( *j, x)] for a stored pair [j]. *)
Definition item_append {V} (j : item V) (x : datetime) : item V :=
  match j with Cached v t | Annotated v t _ => Annotated v t x end.

(** [for i, j in d.items(): body].  The dict iterator compares the dict's
    size with the size it started from before it yields each item, and once
    more when the items are exhausted; a difference is a [RuntimeError].
    [rest] holds the items not yet yielded. *)
Fixpoint for_items {K E : Type} (used : nat) (rest : list (K * E))
    (body : K -> E -> list (K * E) -> list (K * E)) (d : list (K * E))
    : PyResult (list (K * E)) :=
  if negb (Nat.eqb (length d) used) then Raise RuntimeError
  else match rest with
       | [] => Ok d
       | (i, j) :: rest' => for_items used rest' body (body i j d)
       end.

(** The body of the loop over a map-keyed table: pop a stale entry, or store
    the entry again with its expiry time. *)
Definition annotate_step {K V : Type} `{EqDecision K} (ignore_stale : bool)
    (t_now : datetime) (duration : timedelta)
    (i : K) (j : item V) (d : list (K * item V)) : list (K * item V) :=
  if negb ignore_stale && (item_cached_at j + duration <? t_now)
  then PyDict.pop i d
  else PyDict.update i (item_append j (item_cached_at j + duration)) d.

(** The loop over the deep copy of a map-keyed table. *)
Definition annotate_dict {K V : Type} `{EqDecision K} (ignore_stale : bool)
    (t_now : datetime) (duration : timedelta) (table : dict K (V * datetime))
    : PyResult (dict K (item V)) :=
  let cached_items := map (fun kv => (kv.1, Cached kv.2.1 kv.2.2)) table in
  for_items (length cached_items) cached_items
    (annotate_step ignore_stale t_now duration) cached_items.

(** The branch for the two single-tuple caches. *)
Definition annotate_tuple {V : Type} (ignore_stale : bool) (t_now : datetime)
    (duration : timedelta) (cached : option (V * datetime))
    : option (V * datetime * datetime) :=
  match cached with
  | None => None
  | Some (v, t) =>
      if negb ignore_stale && (t + duration <? t_now) then None
      else Some (v, t, t + duration)
  end.

Section Cache.
Context {ftd : Dataclasses}.

(** ** The object's attributes *)

(** A "last full fetch" attribute: [None], a [datetime], or the JSON value
    that [__load_cache] stored and failed to convert. *)
Inductive marker :=
| Unset
| At (t : datetime)
| Undecoded (j : json).

(** The attributes set in [__init__].  Two fields are added to them:
    [full_record_contents] is the attribute [self.__full_record_contents]
    that [purge_cache] assigns ([None] while it was never assigned), and
    [last_cache_purge_undecoded] holds the string-keyed entries of
    [__last_cache_purge] that a failed [__load_cache] left unconverted (they
    precede the converted ones in the dict). *)
Record API := mkAPI {
  cached_news_items : option (list ftd_NewsEntry * datetime);
  cached_images : dict (option string) (ftd_Image * datetime);
  cached_image_contents : dict (option string) ((PIL_Image * PIL_Image) * datetime);
  cached_image_descriptions : dict string (ftd_ImageDescription * datetime);
  cached_chapters : option (dict string ftd_Chapter * datetime);
  cached_records : dict string (ftd_Record * datetime);
  cached_record_contents : dict string (ftd_RecordText * datetime);
  cached_search_results : dict (string * string) (list ftd_SearchResult * datetime);
  cached_full_record_contents : option (dict string ftd_RecordText * datetime);
  full_record_contents : option (option (dict string ftd_RecordText * datetime));
  last_all_images_cache : marker;
  last_full_episodic_cache : marker;
  last_cache_purge : dict CacheTypes datetime;
  last_cache_purge_undecoded : dict string json }.

(** The assignments of [__init__] before the caches are loaded. *)
Definition init_attributes : API :=
  {| cached_news_items := None;
     cached_images := [];
     cached_image_contents := [];
     cached_image_descriptions := [];
     cached_chapters := None;
     cached_records := [];
     cached_record_contents := [];
     cached_search_results := [];
     cached_full_record_contents := None;
     full_record_contents := None;
     last_all_images_cache := Unset;
     last_full_episodic_cache := Unset;
     last_cache_purge := [];
     last_cache_purge_undecoded := [] |}.

Definition set_cached_news_items v (s : API) : API :=
  mkAPI v (cached_images s) (cached_image_contents s) (cached_image_descriptions s)
    (cached_chapters s) (cached_records s) (cached_record_contents s)
    (cached_search_results s) (cached_full_record_contents s) (full_record_contents
    s) (last_all_images_cache s) (last_full_episodic_cache s) (last_cache_purge s)
    (last_cache_purge_undecoded s).
Definition set_cached_images v (s : API) : API :=
  mkAPI (cached_news_items s) v (cached_image_contents s) (cached_image_descriptions
    s) (cached_chapters s) (cached_records s) (cached_record_contents s)
    (cached_search_results s) (cached_full_record_contents s) (full_record_contents
    s) (last_all_images_cache s) (last_full_episodic_cache s) (last_cache_purge s)
    (last_cache_purge_undecoded s).
Definition set_cached_image_contents v (s : API) : API :=
  mkAPI (cached_news_items s) (cached_images s) v (cached_image_descriptions s)
    (cached_chapters s) (cached_records s) (cached_record_contents s)
    (cached_search_results s) (cached_full_record_contents s) (full_record_contents
    s) (last_all_images_cache s) (last_full_episodic_cache s) (last_cache_purge s)
    (last_cache_purge_undecoded s).
Definition set_cached_image_descriptions v (s : API) : API :=
  mkAPI (cached_news_items s) (cached_images s) (cached_image_contents s) v
    (cached_chapters s) (cached_records s) (cached_record_contents s)
    (cached_search_results s) (cached_full_record_contents s) (full_record_contents
    s) (last_all_images_cache s) (last_full_episodic_cache s) (last_cache_purge s)
    (last_cache_purge_undecoded s).
Definition set_cached_chapters v (s : API) : API :=
  mkAPI (cached_news_items s) (cached_images s) (cached_image_contents s)
    (cached_image_descriptions s) v (cached_records s) (cached_record_contents s)
    (cached_search_results s) (cached_full_record_contents s) (full_record_contents
    s) (last_all_images_cache s) (last_full_episodic_cache s) (last_cache_purge s)
    (last_cache_purge_undecoded s).
Definition set_cached_records v (s : API) : API :=
  mkAPI (cached_news_items s) (cached_images s) (cached_image_contents s)
    (cached_image_descriptions s) (cached_chapters s) v (cached_record_contents s)
    (cached_search_results s) (cached_full_record_contents s) (full_record_contents
    s) (last_all_images_cache s) (last_full_episodic_cache s) (last_cache_purge s)
    (last_cache_purge_undecoded s).
Definition set_cached_record_contents v (s : API) : API :=
  mkAPI (cached_news_items s) (cached_images s) (cached_image_contents s)
    (cached_image_descriptions s) (cached_chapters s) (cached_records s) v
    (cached_search_results s) (cached_full_record_contents s) (full_record_contents
    s) (last_all_images_cache s) (last_full_episodic_cache s) (last_cache_purge s)
    (last_cache_purge_undecoded s).
Definition set_cached_search_results v (s : API) : API :=
  mkAPI (cached_news_items s) (cached_images s) (cached_image_contents s)
    (cached_image_descriptions s) (cached_chapters s) (cached_records s)
    (cached_record_contents s) v (cached_full_record_contents s)
    (full_record_contents s) (last_all_images_cache s) (last_full_episodic_cache s)
    (last_cache_purge s) (last_cache_purge_undecoded s).
Definition set_cached_full_record_contents v (s : API) : API :=
  mkAPI (cached_news_items s) (cached_images s) (cached_image_contents s)
    (cached_image_descriptions s) (cached_chapters s) (cached_records s)
    (cached_record_contents s) (cached_search_results s) v (full_record_contents s)
    (last_all_images_cache s) (last_full_episodic_cache s) (last_cache_purge s)
    (last_cache_purge_undecoded s).
Definition set_full_record_contents v (s : API) : API :=
  mkAPI (cached_news_items s) (cached_images s) (cached_image_contents s)
    (cached_image_descriptions s) (cached_chapters s) (cached_records s)
    (cached_record_contents s) (cached_search_results s)
    (cached_full_record_contents s) v (last_all_images_cache s)
    (last_full_episodic_cache s) (last_cache_purge s) (last_cache_purge_undecoded s).
Definition set_last_all_images_cache v (s : API) : API :=
  mkAPI (cached_news_items s) (cached_images s) (cached_image_contents s)
    (cached_image_descriptions s) (cached_chapters s) (cached_records s)
    (cached_record_contents s) (cached_search_results s)
    (cached_full_record_contents s) (full_record_contents s) v
    (last_full_episodic_cache s) (last_cache_purge s) (last_cache_purge_undecoded s).
Definition set_last_full_episodic_cache v (s : API) : API :=
  mkAPI (cached_news_items s) (cached_images s) (cached_image_contents s)
    (cached_image_descriptions s) (cached_chapters s) (cached_records s)
    (cached_record_contents s) (cached_search_results s)
    (cached_full_record_contents s) (full_record_contents s) (last_all_images_cache
    s) v (last_cache_purge s) (last_cache_purge_undecoded s).
Definition set_last_cache_purge v (s : API) : API :=
  mkAPI (cached_news_items s) (cached_images s) (cached_image_contents s)
    (cached_image_descriptions s) (cached_chapters s) (cached_records s)
    (cached_record_contents s) (cached_search_results s)
    (cached_full_record_contents s) (full_record_contents s) (last_all_images_cache
    s) (last_full_episodic_cache s) v (last_cache_purge_undecoded s).
Definition set_last_cache_purge_undecoded v (s : API) : API :=
  mkAPI (cached_news_items s) (cached_images s) (cached_image_contents s)
    (cached_image_descriptions s) (cached_chapters s) (cached_records s)
    (cached_record_contents s) (cached_search_results s)
    (cached_full_record_contents s) (full_record_contents s) (last_all_images_cache
    s) (last_full_episodic_cache s) (last_cache_purge s) v.

(** ** The cache directory *)

(** A JSON document of the shape [json.dump] writes for each cache; the
    values and the timestamps in it are arbitrary.  The metadata document
    has an entry for a "last full fetch" marker only when the marker was
    set. *)
Inductive Document :=
| DocNews (items : list json) (cached_at : json)
| DocImages (entries : dict string (ImageObj * json))
| DocImageContents (index : dict string json)
| DocImageDescriptions (entries : dict string (json * json))
| DocChapters (chapters : dict string ChapterObj) (cached_at : json)
| DocRecords (entries : dict string (json * json))
| DocRecordContents (entries : dict string (RecordTextObj * json))
| DocSearchResults (entries : dict string (list json * json))
| DocFullRecordContents (records : dict string RecordTextObj) (cached_at : json)
| DocCacheMetadata (last_all_images last_full_episodic : option json)
    (purges : dict string json).

(** A text file holds a document, or text that [json.load] rejects. *)
Inductive TextFile :=
| Malformed
| Wellformed (d : Document).

Record FS := mkFS {
  dirs : gset string;
  text_files : gmap string TextFile;
  binary_files : gmap string (list Byte.byte) }.

(** [Path(p).exists()] *)
Definition path_exists (p : string) (f : FS) : bool :=
  bool_decide (p ∈ dirs f)
  || bool_decide (is_Some (text_files f !! p))
  || bool_decide (is_Some (binary_files f !! p)).

(** [Path(p).mkdir(parents=True, exist_ok=True)] *)
Definition mkdir (p : string) (f : FS) : FS :=
  mkFS (dirs f ∪ list_to_set (parent_dirs EmptyString p) ∪ {[p]})
       (text_files f) (binary_files f).

(** [Path(src).replace(dst)] for a file [src]; the cache renames no
    directory. *)
Definition path_replace (src dst : string) (f : FS) : FS :=
  match text_files f !! src with
  | Some x =>
      mkFS (dirs f) (<[dst := x]> (delete src (text_files f))) (delete dst (binary_files f))
  | None =>
      match binary_files f !! src with
      | Some b =>
          mkFS (dirs f) (delete dst (text_files f)) (<[dst := b]> (delete src (binary_files f)))
      | None => f
      end
  end.

(** [if Path(p).exists(): Path(p).replace(f"{p}{CACHE_BAK}")] *)
Definition backup (p : string) (f : FS) : FS :=
  if path_exists p f then path_replace p (p +:+ CACHE_BAK) f else f.

(** [with Path.open(p, "w") as f: json.dump(d, f)], in a directory that
    exists: [__save_cache] creates it first. *)
Definition write_json (p : string) (d : Document) (f : FS) : FS :=
  mkFS (dirs f) (<[p := Wellformed d]> (text_files f)) (delete p (binary_files f)).

(** [image.save(p)] *)
Definition write_bytes (p : string) (b : list Byte.byte) (f : FS) : FS :=
  mkFS (dirs f) (delete p (text_files f)) (<[p := b]> (binary_files f)).

(** [json.load] on the file at an existing path: text that is not JSON is a
    [JSONDecodeError], image bytes are not UTF-8 text ([UnicodeDecodeError],
    a [ValueError]), a directory cannot be opened. *)
Definition json_load (p : string) (f : FS) : PyResult Document :=
  match text_files f !! p with
  | Some Malformed => Raise JSONDecodeError
  | Some (Wellformed d) => Ok d
  | None => match binary_files f !! p with
            | Some _ => Raise ValueError
            | None => Raise OSError
            end
  end.

(** [Path(p).read_bytes()] of an image file. *)
Definition read_bytes (p : string) (f : FS) : PyResult (list Byte.byte) :=
  match binary_files f !! p with
  | Some b => Ok b
  | None => Raise OSError
  end.

(** ** The world and the method monad *)

(** [clock] gives the successive readings of [dt.datetime.now(dt.UTC)];
    [ticks] counts the readings taken so far. *)
Record World := mkWorld {
  self : API;
  fs : FS;
  stdout : list string;
  clock : nat -> datetime;
  ticks : nat }.

Definition M (A : Type) : Type := World -> PyResult A * World.

Definition ret {A} (a : A) : M A := fun w => (Ok a, w).
Definition raise {A} (e : exn) : M A := fun w => (Raise e, w).
Definition bind {A B} (m : M A) (k : A -> M B) : M B :=
  fun w => match m w with
           | (Ok a, w') => k a w'
           | (Raise e, w') => (Raise e, w')
           end.

(** [try: m  except (json.decoder.JSONDecodeError, ValueError): handler] *)
Definition try_except_ValueError (m : M unit) (handler : M unit) : M unit :=
  fun w => match m w with
           | (Raise e, w') => if is_ValueError e then handler w' else (Raise e, w')
           | r => r
           end.

Definition lift {A} (r : PyResult A) : M A := fun w => (r, w).

(** [table[key]] of a class-level table: [KeyError] when absent. *)
Definition getitem {A} (o : option A) : M A :=
  match o with Some a => ret a | None => raise KeyError end.

Definition map_self (f : API -> API) (w : World) : World :=
  mkWorld (f (self w)) (fs w) (stdout w) (clock w) (ticks w).
Definition map_fs (f : FS -> FS) (w : World) : World :=
  mkWorld (self w) (f (fs w)) (stdout w) (clock w) (ticks w).
Definition add_stdout (lines : list string) (w : World) : World :=
  mkWorld (self w) (fs w) (stdout w ++ lines) (clock w) (ticks w).
Definition tick (w : World) : World :=
  mkWorld (self w) (fs w) (stdout w) (clock w) (S (ticks w)).

Definition get_self : M API := fun w => (Ok (self w), w).
Definition modify_self (f : API -> API) : M unit := fun w => (Ok tt, map_self f w).
Definition get_fs : M FS := fun w => (Ok (fs w), w).
Definition modify_fs (f : FS -> FS) : M unit := fun w => (Ok tt, map_fs f w).
Definition print (line : string) : M unit := fun w => (Ok tt, add_stdout [line] w).

(** [dt.datetime.now(dt.UTC)] *)
Definition now : M datetime := fun w => (Ok (clock w (ticks w)), tick w).

Notation "x <- m ;; k" := (bind m (fun x => k))
  (at level 100, m at next level, right associativity).
Notation "m ;;; k" := (bind m (fun _ => k))
  (at level 100, right associativity).

(** ** [purge_cache] *)

(** The cooldown test: [now()] is read only when the purge is not forced and
    a purge time is recorded; the two table lookups follow it. *)
Definition check_purge_cooldown (cache : CacheTypes) (force_purge : bool) : M unit :=
  s <- get_self ;;
  if force_purge then ret tt
  else match PyDict.get cache (last_cache_purge s) with
       | None => ret tt
       | Some last =>
           t <- now ;;
           cooldown <- getitem (CACHE_PURGE_COOLDOWN cache) ;;
           if t <? last + cooldown
           then raise (CachePurgeError CACHE_PURGE (Some (last + cooldown)))
           else ret tt
       end.

(** The [match cache] of [purge_cache]. *)
Definition clear_cache (cache : CacheTypes) : M unit :=
  match cache with
  | NEWS_ITEMS => modify_self (set_cached_news_items None)
  | IMAGES =>
      modify_self (set_cached_images []) ;;;
      modify_self (set_last_all_images_cache Unset)
  | IMAGE_CONTENTS => modify_self (set_cached_image_contents [])
  | IMAGE_DESCRIPTIONS => modify_self (set_cached_image_descriptions [])
  | CHAPTERS =>
      modify_self (set_cached_chapters None) ;;;
      modify_self (set_last_full_episodic_cache Unset)
  | RECORDS => modify_self (set_cached_records [])
  | RECORD_CONTENTS => modify_self (set_cached_record_contents [])
  | SEARCH_RESULTS => modify_self (set_cached_search_results [])
  | FULL_RECORD_CONTENTS => modify_self (set_full_record_contents (Some None))
  | CACHE_METADATA => raise (CachePurgeError INVALID_CACHE None)
  end.

Definition purge_cache (cache : CacheTypes) (force_purge : bool) : M unit :=
  check_purge_cooldown cache force_purge ;;;
  clear_cache cache ;;;
  t <- now ;;
  modify_self (fun s => set_last_cache_purge (PyDict.update cache t (last_cache_purge s)) s).

(** ** [get_cached_items] *)

(** [(x, x + self.__CACHE_DURATION[cache])] for a copied marker [x]: adding
    a [timedelta] to [None], or to a JSON value, is a [TypeError]. *)
Definition annotate_marker (x : marker) (cache : CacheTypes) : M (datetime * datetime) :=
  duration <- getitem (CACHE_DURATION cache) ;;
  match x with
  | At t => ret (t, t + duration)
  | Unset | Undecoded _ => raise TypeError
  end.

(** [{i: (j, j + cooldown[i]) for i, j in purges.items()}] over the converted
    entries. *)
Fixpoint purge_times (purges : list (CacheTypes * datetime))
    (acc : dict CacheTypes (datetime * datetime))
    : M (dict CacheTypes (datetime * datetime)) :=
  match purges with
  | [] => ret acc
  | (i, j) :: rest =>
      cooldown <- getitem (CACHE_PURGE_COOLDOWN i) ;;
      purge_times rest (PyDict.update i (j, j + cooldown) acc)
  end.

(** The same comprehension over the whole attribute: an unconverted entry
    comes first and its string key is not in the cooldown table. *)
Definition annotate_purges (s : API) : M (dict CacheTypes (datetime * datetime)) :=
  match last_cache_purge_undecoded s with
  | [] => purge_times (last_cache_purge s) []
  | _ :: _ => raise KeyError
  end.

Inductive CachedItems :=
| NoItems
| NewsItems (items : list ftd_NewsEntry) (cached_at expires_at : datetime)
| ImageItems (d : dict (option string) (item ftd_Image))
| ImageContentItems (d : dict (option string) (item (PIL_Image * PIL_Image)))
| ImageDescriptionItems (d : dict string (item ftd_ImageDescription))
| ChapterItems (chapters : dict string ftd_Chapter) (cached_at expires_at : datetime)
| RecordItems (d : dict string (item ftd_Record))
| RecordContentItems (d : dict string (item ftd_RecordText))
| SearchResultItems (d : dict (string * string) (item (list ftd_SearchResult)))
| MetadataItems (last_all_images last_full_episodic : datetime * datetime)
    (purges : dict CacheTypes (datetime * datetime)).

(** Each branch joins the [match cache] that copies the table with the
    later branch that annotates it. *)
Definition get_cached_items (cache : CacheTypes) (ignore_stale : bool) : M CachedItems :=
  t_now <- now ;;
  s <- get_self ;;
  match cache with
  | NEWS_ITEMS =>
      duration <- getitem (CACHE_DURATION cache) ;;
      ret match annotate_tuple ignore_stale t_now duration (cached_news_items s) with
          | None => NoItems
          | Some (v, t, e) => NewsItems v t e
          end
  | IMAGES =>
      duration <- getitem (CACHE_DURATION cache) ;;
      d <- lift (annotate_dict ignore_stale t_now duration (cached_images s)) ;;
      ret (ImageItems d)
  | IMAGE_CONTENTS =>
      duration <- getitem (CACHE_DURATION cache) ;;
      d <- lift (annotate_dict ignore_stale t_now duration (cached_image_contents s)) ;;
      ret (ImageContentItems d)
  | IMAGE_DESCRIPTIONS =>
      duration <- getitem (CACHE_DURATION cache) ;;
      d <- lift (annotate_dict ignore_stale t_now duration (cached_image_descriptions s)) ;;
      ret (ImageDescriptionItems d)
  | CHAPTERS =>
      duration <- getitem (CACHE_DURATION cache) ;;
      ret match annotate_tuple ignore_stale t_now duration (cached_chapters s) with
          | None => NoItems
          | Some (v, t, e) => ChapterItems v t e
          end
  | RECORDS =>
      duration <- getitem (CACHE_DURATION cache) ;;
      d <- lift (annotate_dict ignore_stale t_now duration (cached_records s)) ;;
      ret (RecordItems d)
  | RECORD_CONTENTS =>
      duration <- getitem (CACHE_DURATION cache) ;;
      d <- lift (annotate_dict ignore_stale t_now duration (cached_record_contents s)) ;;
      ret (RecordContentItems d)
  | SEARCH_RESULTS =>
      duration <- getitem (CACHE_DURATION cache) ;;
      d <- lift (annotate_dict ignore_stale t_now duration (cached_search_results s)) ;;
      ret (SearchResultItems d)
  | CACHE_METADATA =>
      last_all_images <- annotate_marker (last_all_images_cache s) IMAGES ;;
      last_full_episodic <- annotate_marker (last_full_episodic_cache s) CHAPTERS ;;
      purges <- annotate_purges s ;;
      ret (MetadataItems last_all_images last_full_episodic purges)
  | FULL_RECORD_CONTENTS => raise CacheFetchError
  end.

(** ** [__save_cache] *)

(** [name = i; if name is None: name = "__None__"] *)
Definition file_key (i : option string) : string :=
  match i with Some name => name | None => NONE_TOKEN end.

(** The loop of the image-contents branch; [saved_images] is the index
    built so far. *)
Fixpoint save_images (cache_path : string)
    (items : list (option string * ((PIL_Image * PIL_Image) * datetime)))
    (saved_images : dict string json) : M (dict string json) :=
  match items with
  | [] => ret saved_images
  | (i, j) :: rest =>
      let name := file_key i in
      let image_path := image_file_path cache_path name in
      let thumb_path := thumb_file_path cache_path name in
      modify_fs (backup image_path) ;;;
      modify_fs (backup thumb_path) ;;;
      modify_fs (write_bytes image_path (PIL_save j.1.1)) ;;;
      modify_fs (write_bytes thumb_path (PIL_save j.1.2)) ;;;
      save_images cache_path rest (PyDict.update name (timestamp j.2) saved_images)
  end.

(** [x.timestamp()] for a marker that is not [None]. *)
Definition marker_timestamp (x : marker) : M (option json) :=
  match x with
  | Unset => ret None
  | At t => ret (Some (timestamp t))
  | Undecoded _ => raise AttributeError
  end.

(** The [match cache] of the JSON branch: the document to dump.  Subscripting
    an empty single-tuple cache ([None]) is a [TypeError]; the match has no
    case for [IMAGE_CONTENTS], which [__save_cache] never passes here. *)
Definition cache_document (cache : CacheTypes) (s : API) : M Document :=
  match cache with
  | NEWS_ITEMS =>
      match cached_news_items s with
      | None => raise TypeError
      | Some c => ret (DocNews (map NewsEntry_asdict c.1) (timestamp c.2))
      end
  | IMAGES =>
      ret (DocImages (PyDict.of_list
             (map (fun ij => (file_key ij.1, (Image_asdict ij.2.1, timestamp ij.2.2)))
                  (cached_images s))))
  | IMAGE_CONTENTS => raise NameError
  | IMAGE_DESCRIPTIONS =>
      ret (DocImageDescriptions (PyDict.of_list
             (map (fun ij => (ij.1, (ImageDescription_asdict ij.2.1, timestamp ij.2.2)))
                  (cached_image_descriptions s))))
  | CHAPTERS =>
      match cached_chapters s with
      | None => raise TypeError
      | Some c =>
          ret (DocChapters
                 (PyDict.of_list (map (fun ij => (ij.1, Chapter_asdict ij.2)) c.1))
                 (timestamp c.2))
      end
  | RECORDS =>
      ret (DocRecords (PyDict.of_list
             (map (fun ij => (ij.1, (Record_asdict ij.2.1, timestamp ij.2.2)))
                  (cached_records s))))
  | RECORD_CONTENTS =>
      ret (DocRecordContents (PyDict.of_list
             (map (fun ij => (ij.1, (RecordText_asdict ij.2.1, timestamp ij.2.2)))
                  (cached_record_contents s))))
  | SEARCH_RESULTS =>
      ret (DocSearchResults (PyDict.of_list
             (map (fun ij => (ij.1.1 +:+ "|" +:+ ij.1.2,
                              (map SearchResult_asdict ij.2.1, timestamp ij.2.2)))
                  (cached_search_results s))))
  | FULL_RECORD_CONTENTS =>
      match cached_full_record_contents s with
      | None => raise TypeError
      | Some c =>
          ret (DocFullRecordContents
                 (PyDict.of_list (map (fun ij => (ij.1, RecordText_asdict ij.2)) c.1))
                 (timestamp c.2))
      end
  | CACHE_METADATA =>
      last_all_images <- marker_timestamp (last_all_images_cache s) ;;
      last_full_episodic <- marker_timestamp (last_full_episodic_cache s) ;;
      match last_cache_purge_undecoded s with
      | _ :: _ => raise AttributeError
      | [] =>
          ret (DocCacheMetadata last_all_images last_full_episodic
                 (PyDict.of_list
                    (map (fun ij => (CacheTypes_value ij.1, timestamp ij.2))
                         (last_cache_purge s))))
      end
  end.

(** The body of [__save_cache], with its recursive call as a parameter. *)
Definition save_cache_body (save_cache : CacheTypes -> M unit) (cache : CacheTypes)
    : M unit :=
  if decide (cache = IMAGE_CONTENTS) then
    let cache_path := cache_dir_path cache in
    modify_fs (mkdir cache_path) ;;;
    s <- get_self ;;
    saved_images <- save_images cache_path (cached_image_contents s) [] ;;
    let cache_meta := cache_path +:+ CACHE_EXT in
    modify_fs (backup cache_meta) ;;;
    modify_fs (write_json cache_meta (DocImageContents saved_images))
  else
    let cache_path := cache_file_path cache in
    modify_fs (mkdir (path_parent cache_path)) ;;;
    modify_fs (backup cache_path) ;;;
    s <- get_self ;;
    cache_contents <- cache_document cache s ;;
    modify_fs (write_json cache_path cache_contents) ;;;
    if decide (cache <> CACHE_METADATA) then save_cache CACHE_METADATA else ret tt.

(** The recursion of [__save_cache] is one call deep: the inner call is for
    [CACHE_METADATA], which does not call again. *)
Definition save_cache_metadata : M unit :=
  save_cache_body (fun _ => ret tt) CACHE_METADATA.

Definition save_cache (cache : CacheTypes) : M unit :=
  save_cache_body (fun _ => save_cache_metadata) cache.

(** ** [__load_cache] *)

(** The loop of the image-contents branch over the index. *)
Fixpoint load_images (cache_path : string) (saved_images : list (string * json))
    : M unit :=
  match saved_images with
  | [] => ret tt
  | (i, x) :: rest =>
      t <- lift (fromtimestamp x) ;;
      let image_path := image_file_path cache_path i in
      let thumb_path := thumb_file_path cache_path i in
      f <- get_fs ;;
      if negb (path_exists image_path f && path_exists thumb_path f)
      then load_images cache_path rest
      else
        image_bytes <- lift (read_bytes image_path f) ;;
        thumb_bytes <- lift (read_bytes thumb_path f) ;;
        image <- lift (PIL_open image_bytes) ;;
        thumb <- lift (PIL_open thumb_bytes) ;;
        let name := if decide (i = NONE_TOKEN) then None else Some i in
        modify_self (fun s =>
          set_cached_image_contents
            (PyDict.update name ((image, thumb), t) (cached_image_contents s)) s) ;;;
        load_images cache_path rest
  end.

(** [(value(j[0]), fromtimestamp(j[1]))] *)
Definition load_entry {O V : Type} (from_obj : O -> PyResult V) (j : O * json)
    : PyResult (V * datetime) :=
  and_then (from_obj j.1) (fun v =>
  and_then (fromtimestamp j.2) (fun t => Ok (v, t))).

(** What [cache_contents.get(key)] assigns to a marker attribute: [None]
    for a missing key and for the JSON value [null]. *)
Definition marker_of_json (x : option json) : marker :=
  match x with
  | None | Some JNull => Unset
  | Some j => Undecoded j
  end.

(** [if x is not None: x = fromtimestamp(x)] for a marker attribute. *)
Definition convert_marker (x : option json) (set : marker -> API -> API) : M unit :=
  match x with
  | None | Some JNull => ret tt
  | Some j => t <- lift (fromtimestamp j) ;; modify_self (set (At t))
  end.

(** The [CACHE_METADATA] case: the three attributes first receive what
    [cache_contents.get] returns, then each is converted. *)
Definition load_metadata (last_all_images last_full_episodic : option json)
    (purges : dict string json) : M unit :=
  modify_self (set_last_all_images_cache (marker_of_json last_all_images)) ;;;
  modify_self (set_last_full_episodic_cache (marker_of_json last_full_episodic)) ;;;
  modify_self (set_last_cache_purge []) ;;;
  modify_self (set_last_cache_purge_undecoded purges) ;;;
  convert_marker last_all_images set_last_all_images_cache ;;;
  convert_marker last_full_episodic set_last_full_episodic_cache ;;;
  converted <- lift (dict_comprehension
                 (fun ij => and_then (CacheTypes_of_value ij.1) (fun c =>
                            and_then (fromtimestamp ij.2) (fun t => Ok (c, t))))
                 purges []) ;;
  modify_self (set_last_cache_purge converted) ;;;
  modify_self (set_last_cache_purge_undecoded []).

(** The [match cache] of the JSON branch, on a document of the layout that
    [__save_cache] writes for [cache].  On a document of another layout the
    code fails with [KeyError], [IndexError], [AttributeError] or
    [TypeError], depending on the layout; the last line stands for these
    with [TypeError], and the properties of a failed load are stated for
    snapshots of the written layout ([snapshot_shaped]). *)
Definition load_document (cache : CacheTypes) (doc : Document) : M unit :=
  match cache, doc with
  | NEWS_ITEMS, DocNews items cached_at =>
      c <- lift (and_then (list_comprehension NewsEntry_from_obj items) (fun l =>
                 and_then (fromtimestamp cached_at) (fun t => Ok (l, t)))) ;;
      modify_self (set_cached_news_items (Some c))
  | IMAGES, DocImages entries =>
      c <- lift (dict_comprehension
             (fun ij => and_then (load_entry Image_from_obj ij.2) (fun v =>
                Ok (if decide (ij.1 <> NONE_TOKEN) then Some ij.1 else None, v)))
             entries []) ;;
      modify_self (set_cached_images c)
  | IMAGE_DESCRIPTIONS, DocImageDescriptions entries =>
      c <- lift (dict_comprehension
             (fun ij => and_then (load_entry ImageDescription_from_obj ij.2) (fun v =>
                Ok (ij.1, v)))
             entries []) ;;
      modify_self (set_cached_image_descriptions c)
  | CHAPTERS, DocChapters chapters cached_at =>
      c <- lift (and_then (dict_comprehension
                    (fun ij => and_then (Chapter_from_obj ij.2) (fun v => Ok (ij.1, v)))
                    chapters []) (fun d =>
                 and_then (fromtimestamp cached_at) (fun t => Ok (d, t)))) ;;
      modify_self (set_cached_chapters (Some c))
  | RECORDS, DocRecords entries =>
      c <- lift (dict_comprehension
             (fun ij => and_then (load_entry Record_from_obj ij.2) (fun v =>
                Ok (ij.1, v)))
             entries []) ;;
      modify_self (set_cached_records c)
  | RECORD_CONTENTS, DocRecordContents entries =>
      c <- lift (dict_comprehension
             (fun ij => and_then
                (load_entry (fun o => RecordText_from_obj (rto_title o) o) ij.2)
                (fun v => Ok (ij.1, v)))
             entries []) ;;
      modify_self (set_cached_record_contents c)
  | SEARCH_RESULTS, DocSearchResults entries =>
      c <- lift (dict_comprehension
             (fun ij =>
                match rsplit_char "|"%char ij.1 with
                | None => Raise ValueError
                | Some key =>
                    and_then (load_entry (list_comprehension SearchResult_from_obj) ij.2)
                      (fun v => Ok (key, v))
                end)
             entries []) ;;
      modify_self (set_cached_search_results c)
  | FULL_RECORD_CONTENTS, DocFullRecordContents records cached_at =>
      c <- lift (and_then (dict_comprehension
                    (fun ij => and_then (RecordText_from_obj (rto_title ij.2) ij.2)
                                 (fun v => Ok (ij.1, v)))
                    records []) (fun d =>
                 and_then (fromtimestamp cached_at) (fun t => Ok (d, t)))) ;;
      modify_self (set_cached_full_record_contents (Some c))
  | CACHE_METADATA, DocCacheMetadata last_all_images last_full_episodic purges =>
      load_metadata last_all_images last_full_episodic purges
  | _, _ => raise TypeError
  end.

(** The [try] block of [__load_cache]. *)
Definition load_cache_body (cache : CacheTypes) : M unit :=
  if decide (cache = IMAGE_CONTENTS) then
    let cache_path := cache_dir_path cache in
    f <- get_fs ;;
    if negb (path_exists cache_path f) then ret tt
    else
      let cache_meta := cache_path +:+ CACHE_EXT in
      if negb (path_exists cache_meta f) then ret tt
      else
        saved_images <- lift (json_load cache_meta f) ;;
        match saved_images with
        | DocImageContents index => load_images cache_path index
        | _ => raise TypeError
        end
  else
    let cache_path := cache_file_path cache in
    f <- get_fs ;;
    if negb (path_exists cache_path f) then ret tt
    else
      cache_contents <- lift (json_load cache_path f) ;;
      load_document cache cache_contents.

(** [__load_cache]; the second printed line stands for the text of
    [traceback.format_exc()]. *)
Definition load_cache (cache : CacheTypes) : M unit :=
  try_except_ValueError (load_cache_body cache)
    (print ("Error while loading cache for " +:+ CacheTypes_value cache) ;;;
     print "traceback.format_exc()").

(** [for i in self.CacheTypes: await self.__load_cache(i)] *)
Fixpoint load_caches (caches : list CacheTypes) : M unit :=
  match caches with
  | [] => ret tt
  | i :: rest => load_cache i ;;; load_caches rest
  end.

Definition load_all_cache : M unit := load_caches CacheTypes_all.

(** [FractalthornsAPI()]: the attribute assignments of [__init__] and then
    [asyncio.run(self.__load_all_cache())]. *)
Definition init : M unit :=
  modify_self (fun _ => init_attributes) ;;;
  load_all_cache.

(** ** The two fetches with effects on other caches *)

Definition base_url : string := "https://fractalthorns.com".

(** [marker is None or now() > marker + self.__CACHE_DURATION[cache]] *)
Definition needs_refresh (x : marker) (cache : CacheTypes) : M bool :=
  match x with
  | Unset => ret true
  | At last =>
      t <- now ;;
      duration <- getitem (CACHE_DURATION cache) ;;
      ret (last + duration <? t)
  | Undecoded _ => now ;;; raise TypeError
  end.

(** The two assignments that make the urls of an image object absolute. *)
Definition resolve_urls (image : ImageObj) : ImageObj :=
  mkImageObj (io_name image) (base_url +:+ io_image_url image)
    (base_url +:+ io_thumb_url image) (io_fields image).

(** [for image in images: ...] of [__get_all_images] *)
Fixpoint store_images (cache_time : datetime) (images : list ImageObj) : M unit :=
  match images with
  | [] => ret tt
  | image :: rest =>
      let image := resolve_urls image in
      v <- lift (Image_from_obj image) ;;
      modify_self (fun s =>
        set_cached_images
          (PyDict.update (Some (io_name image)) (v, cache_time) (cached_images s)) s) ;;;
      store_images cache_time rest
  end.

(** [__get_all_images].  [response] is what the request, its status check and
    [json.loads(...)["images"]] give when the refresh path asks for them.
    [next] on the empty table raises [StopIteration], which leaves the
    coroutine as a [RuntimeError]. *)
Definition get_all_images (response : PyResult (list ImageObj)) : M (list ftd_Image) :=
  s <- get_self ;;
  refresh <- needs_refresh (last_all_images_cache s) IMAGES ;;
  (if refresh : bool then
     images <- lift response ;;
     cache_time <- now ;;
     purge_cache IMAGES true ;;;
     store_images cache_time images ;;;
     s1 <- get_self ;;
     first <- match PyDict.values (cached_images s1) with
              | [] => raise RuntimeError
              | v :: _ => ret v
              end ;;
     modify_self (fun s =>
       set_cached_images (PyDict.update None first (cached_images s)) s) ;;;
     modify_self (set_last_all_images_cache (At cache_time)) ;;;
     save_cache IMAGES
   else ret tt) ;;;
  s2 <- get_self ;;
  ret (map (fun ij => ij.2.1)
         (List.filter (fun ij => bool_decide (ij.1 <> None)) (cached_images s2))).

(** The nested loops of [__get_full_episodic] over the chapters' records. *)
Definition store_solved_records (cache_time : datetime) (chapters : list ftd_Chapter)
    (table : dict string (ftd_Record * datetime)) : dict string (ftd_Record * datetime) :=
  fold_left
    (fun table chapter =>
       fold_left
         (fun table record =>
            if Record_solved record
            then PyDict.update (Record_name record) (record, cache_time) table
            else table)
         (Chapter_records chapter) table)
    chapters table.

(** [__get_full_episodic], with [response] as for [get_all_images]. *)
Definition get_full_episodic (response : PyResult (list ChapterObj))
    : M (list ftd_Chapter) :=
  s <- get_self ;;
  refresh <- needs_refresh (last_full_episodic_cache s) CHAPTERS ;;
  (if refresh : bool then
     chapters_list <- lift response ;;
     cache_time <- now ;;
     purge_cache CHAPTERS true ;;;
     purge_cache RECORDS true ;;;
     chapters <- lift (dict_comprehension
                   (fun chapter => and_then (Chapter_from_obj chapter) (fun v =>
                                   Ok (co_name chapter, v)))
                   chapters_list []) ;;
     modify_self (set_cached_chapters (Some (chapters, cache_time))) ;;;
     modify_self (fun s =>
       set_cached_records
         (store_solved_records cache_time (PyDict.values chapters) (cached_records s)) s) ;;;
     modify_self (set_last_full_episodic_cache (At cache_time)) ;;;
     save_cache CHAPTERS ;;;
     save_cache RECORDS
   else ret tt) ;;;
  s2 <- get_self ;;
  match cached_chapters s2 with
  | None => raise TypeError
  | Some c => ret (PyDict.values c.1)
  end.

(** ** The fetches of one item *)

Context {fields : DataclassFields ftd}.

(** [entry is missing or now() > entry[1] + self.__CACHE_DURATION[cache]]:
    the clock is read only when the entry is there. *)
Definition is_stale (cached_at : option datetime) (cache : CacheTypes) : M bool :=
  match cached_at with
  | None => ret true
  | Some last =>
      t <- now ;;
      duration <- getitem (CACHE_DURATION cache) ;;
      ret (last + duration <? t)
  end.

(** [__get_all_news].  [response] is what the request, its status check and
    [json.loads(...)["items"]] give when the refresh path asks for them. *)
Definition get_all_news (response : PyResult (list json)) : M (list ftd_NewsEntry) :=
  s <- get_self ;;
  refresh <- is_stale (snd <$> cached_news_items s) NEWS_ITEMS ;;
  (if refresh : bool then
     items <- lift response ;;
     news_items <- lift (list_comprehension NewsEntry_from_obj items) ;;
     t <- now ;;
     modify_self (set_cached_news_items (Some (news_items, t))) ;;;
     save_cache NEWS_ITEMS
   else ret tt) ;;;
  s2 <- get_self ;;
  match cached_news_items s2 with
  | None => raise TypeError
  | Some c => ret c.1
  end.

(** [__get_single_image].  [response] is the decoded image object of the
    request.  For the default image ([image is None]) the entry is stored a
    second time under the name of the image, converted and stamped again. *)
Definition get_single_image (response : PyResult ImageObj) (image : option string)
    : M ftd_Image :=
  s <- get_self ;;
  refresh <- is_stale (snd <$> PyDict.get image (cached_images s)) IMAGES ;;
  (if refresh : bool then
     image_metadata <- lift response ;;
     let image_metadata := resolve_urls image_metadata in
     v <- lift (Image_from_obj image_metadata) ;;
     t <- now ;;
     modify_self (fun s =>
       set_cached_images (PyDict.update image (v, t) (cached_images s)) s) ;;;
     match image with
     | Some _ => ret tt
     | None =>
         s1 <- get_self ;;
         stored <- getitem (PyDict.get image (cached_images s1)) ;;
         v' <- lift (Image_from_obj image_metadata) ;;
         t' <- now ;;
         modify_self (fun s =>
           set_cached_images
             (PyDict.update (Some (Image_name stored.1)) (v', t') (cached_images s)) s)
     end ;;;
     save_cache IMAGES
   else ret tt) ;;;
  s2 <- get_self ;;
  v <- getitem (PyDict.get image (cached_images s2)) ;;
  ret v.1.

(** [__get_single_record], with [response] the decoded record object. *)
Definition get_single_record (response : PyResult json) (name : string) : M ftd_Record :=
  s <- get_self ;;
  refresh <- is_stale (snd <$> PyDict.get name (cached_records s)) RECORDS ;;
  (if refresh : bool then
     record <- lift response ;;
     v <- lift (Record_from_obj record) ;;
     t <- now ;;
     modify_self (fun s =>
       set_cached_records (PyDict.update name (v, t) (cached_records s)) s) ;;;
     save_cache RECORDS
   else ret tt) ;;;
  s2 <- get_self ;;
  v <- getitem (PyDict.get name (cached_records s2)) ;;
  ret v.1.

(** [__get_image_description].  [response] is the decoded description
    object; [image_response] is what the nested [__get_single_image] call
    gets if it makes a request of its own for the title. *)
Definition get_image_description (response : PyResult (dict string json))
    (image_response : PyResult ImageObj) (image : string) : M ftd_ImageDescription :=
  s <- get_self ;;
  refresh <- is_stale (snd <$> PyDict.get image (cached_image_descriptions s))
               IMAGE_DESCRIPTIONS ;;
  (if refresh : bool then
     image_description <- lift response ;;
     image_info <- get_single_image image_response (Some image) ;;
     let image_description :=
       PyDict.update "title" (Image_title image_info) image_description in
     v <- lift (ImageDescription_from_obj (JObject image_description)) ;;
     t <- now ;;
     modify_self (fun s =>
       set_cached_image_descriptions
         (PyDict.update image (v, t) (cached_image_descriptions s)) s) ;;;
     save_cache IMAGE_DESCRIPTIONS
   else ret tt) ;;;
  s2 <- get_self ;;
  v <- getitem (PyDict.get image (cached_image_descriptions s2)) ;;
  ret v.1.

End Cache.

(** ** Vocabulary of the statements *)

Section Vocabulary.
Context {ftd : Dataclasses}.

(** The table of a cache holds nothing. *)
Definition table_empty (cache : CacheTypes) (s : API) : Prop :=
  match cache with
  | NEWS_ITEMS => cached_news_items s = None
  | IMAGES => cached_images s = []
  | IMAGE_CONTENTS => cached_image_contents s = []
  | IMAGE_DESCRIPTIONS => cached_image_descriptions s = []
  | CHAPTERS => cached_chapters s = None
  | RECORDS => cached_records s = []
  | RECORD_CONTENTS => cached_record_contents s = []
  | SEARCH_RESULTS => cached_search_results s = []
  | FULL_RECORD_CONTENTS => cached_full_record_contents s = None
  | CACHE_METADATA => True
  end.

(** The map-keyed caches. *)
Definition map_keyed : list CacheTypes :=
  [IMAGES; IMAGE_CONTENTS; IMAGE_DESCRIPTIONS; RECORDS; RECORD_CONTENTS; SEARCH_RESULTS].

(** The [cached_at] of every entry of a map-keyed table. *)
Definition cached_times (cache : CacheTypes) (s : API) : list datetime :=
  match cache with
  | IMAGES => (cached_images s).*2.*2
  | IMAGE_CONTENTS => (cached_image_contents s).*2.*2
  | IMAGE_DESCRIPTIONS => (cached_image_descriptions s).*2.*2
  | RECORDS => (cached_records s).*2.*2
  | RECORD_CONTENTS => (cached_record_contents s).*2.*2
  | SEARCH_RESULTS => (cached_search_results s).*2.*2
  | _ => []
  end.

(** The view [get_cached_items] is meant to return for a table without a
    stale entry: every entry with its expiry time. *)
Definition annotate_all {K V : Type} (duration : timedelta)
    (table : list (K * (V * datetime))) : list (K * item V) :=
  map (fun kv => (kv.1, Annotated kv.2.1 kv.2.2 (kv.2.2 + duration))) table.

(** Every "last full fetch" attribute and every recorded purge has been
    converted: the state outside a failed metadata load. *)
Definition metadata_decoded (s : API) : Prop :=
  (forall j, last_all_images_cache s <> Undecoded j)
  /\ (forall j, last_full_episodic_cache s <> Undecoded j)
  /\ last_cache_purge_undecoded s = [].

Definition marker_json (x : marker) : option json :=
  match x with At t => Some (timestamp t) | _ => None end.

(** The document written to the cache-metadata file. *)
Definition metadata_document (s : API) : Document :=
  DocCacheMetadata (marker_json (last_all_images_cache s))
    (marker_json (last_full_episodic_cache s))
    (PyDict.of_list
       (map (fun ij => (CacheTypes_value ij.1, timestamp ij.2)) (last_cache_purge s))).

(** The effect of saving the metadata on the cache directory. *)
Definition metadata_written (s : API) (f : FS) : FS :=
  let cache_path := cache_file_path CACHE_METADATA in
  write_json cache_path (metadata_document s)
    (backup cache_path (mkdir (path_parent cache_path) f)).

(** The effect of saving a JSON cache other than the metadata. *)
Definition document_written (cache : CacheTypes) (doc : Document) (s : API) (f : FS) : FS :=
  let cache_path := cache_file_path cache in
  metadata_written s
    (write_json cache_path doc (backup cache_path (mkdir (path_parent cache_path) f))).

(** The refresh path is taken: the marker is unset, or older than the
    cache duration at the clock reading of the test. *)
Definition refresh_due (x : marker) (cache : CacheTypes) (w : World) : Prop :=
  x = Unset
  \/ exists last duration,
       x = At last /\ CACHE_DURATION cache = Some duration
       /\ last + duration < clock w (ticks w).

(** The world after the freshness test, which reads the clock unless the
    marker is unset. *)
Definition after_check (x : marker) (w : World) : World :=
  match x with Unset => w | _ => tick w end.

(** The table entries of the images of a response. *)
Definition image_entries (cache_time : datetime) (images : list ImageObj)
    (values : list ftd_Image) : list (option string * (ftd_Image * datetime)) :=
  zip_with (fun o v => (Some (io_name o), (v, cache_time))) images values.

(** The solved records of a list of chapters, in order. *)
Definition solved_records (chapters : list ftd_Chapter) : list ftd_Record :=
  List.filter Record_solved (concat (map Chapter_records chapters)).

Definition record_entries (cache_time : datetime) (records : list ftd_Record)
    : list (string * (ftd_Record * datetime)) :=
  map (fun r => (Record_name r, (r, cache_time))) records.

(** The chapters dict built from a response. *)
Definition chapter_entries (chapters_list : list ChapterObj) (chapters : list ftd_Chapter)
    : list (string * ftd_Chapter) :=
  zip_with (fun o v => (co_name o, v)) chapters_list chapters.

(** The recorded purge time [t] of a cache blocks an unforced purge until
    the cooldown has passed. *)
Definition purge_blocked_since (cache : CacheTypes) (t : datetime) (w : World) : Prop :=
  PyDict.get cache (last_cache_purge (self w)) = Some t
  /\ forall cooldown,
       CACHE_PURGE_COOLDOWN cache = Some cooldown ->
       clock w (ticks w) < t + cooldown ->
       (purge_cache cache false w).1
       = Raise (CachePurgeError CACHE_PURGE (Some (t + cooldown))).
















(** The loaded object [s'] holds the table of [cache] that [s] held. *)
Definition same_table (cache : CacheTypes) (s' s : API) : Prop :=
  match cache with
  | NEWS_ITEMS => cached_news_items s' = cached_news_items s
  | IMAGES => cached_images s' = cached_images s
  | IMAGE_CONTENTS => cached_image_contents s' = cached_image_contents s
  | IMAGE_DESCRIPTIONS => cached_image_descriptions s' = cached_image_descriptions s
  | CHAPTERS => cached_chapters s' = cached_chapters s
  | RECORDS => cached_records s' = cached_records s
  | RECORD_CONTENTS => cached_record_contents s' = cached_record_contents s
  | SEARCH_RESULTS => cached_search_results s' = cached_search_results s
  | FULL_RECORD_CONTENTS =>
      cached_full_record_contents s' = cached_full_record_contents s
  | CACHE_METADATA =>
      last_all_images_cache s' = last_all_images_cache s
      /\ last_full_episodic_cache s' = last_full_episodic_cache s
      /\ last_cache_purge s' = last_cache_purge s
  end.











(** Nothing but clock readings separates [w'] from [w]. *)
Definition only_clock_read (w w' : World) : Prop :=
  self w' = self w /\ fs w' = fs w /\ stdout w' = stdout w.

(** A single-item fetch takes the request path: the entry is missing, or
    older than the cache duration at the clock reading of the test. *)
Definition entry_due (cached_at : option datetime) (cache : CacheTypes) (w : World)
    : Prop :=
  match cached_at with
  | None => True
  | Some last =>
      exists duration,
        CACHE_DURATION cache = Some duration /\ last + duration < clock w (ticks w)
  end.

(** The world after that test, which reads the clock when the entry is
    there. *)
Definition after_test (cached_at : option datetime) (w : World) : World :=
  match cached_at with None => w | Some _ => tick w end.

End Vocabulary.

(** ** Splitting a long message ([src/fractalrhomb_globals.py]) *)

Definition MAX_MESSAGE_LENGTH : nat := 1950.

(** The iterations that the loop safeguard of [split_message] allows. *)
Definition MAX_LOOP : nat := Z.to_nat 100000.

(** [s.rfind(c, 0, end_)] for a one-character [c]; [None] stands for [-1]. *)
Fixpoint rfind (c : ascii) (s : string) (end_ : nat) : option nat :=
  match end_, s with
  | S e, String a s' =>
      match rfind c s' e with
      | Some k => Some (S k)
      | None => if decide (a = c) then Some 0%nat else None
      end
  | _, _ => None
  end.

(** [s[:n]] and [s[n:]] *)
Fixpoint slice_to (n : nat) (s : string) : string :=
  match n, s with
  | S n', String a s' => String a (slice_to n' s')
  | _, _ => EmptyString
  end.

Fixpoint slice_from (n : nat) (s : string) : string :=
  match n, s with
  | S n', String _ s' => slice_from n' s'
  | _, _ => s
  end.

Definition newline : ascii := "010"%char.

(** One pass of the first loop over an item that is too long: what stays at
    [message[i]] and what is inserted at [message[i + 1]].  The item is cut
    at the last newline before the limit, else at the last space, else after
    [MAX_MESSAGE_LENGTH - 1] characters with a hyphen appended. *)
Definition split_item (m : string) : string * string :=
  match rfind newline m MAX_MESSAGE_LENGTH with
  | Some k => (slice_to k m, slice_from (S k) m)
  | None =>
      match rfind " "%char m MAX_MESSAGE_LENGTH with
      | Some k => (slice_to k m, slice_from (S k) m)
      | None =>
          (slice_to (MAX_MESSAGE_LENGTH - 1) m +:+ "-",
           slice_from (MAX_MESSAGE_LENGTH - 1) m)
      end
  end.

(** The [while i < len(message)] loop.  [seen] is [message[:i]] and [rest]
    is [message[i:]]; the result is the list [message] as the loop leaves
    it.  [max_loop] is the counter of the safeguard. *)
Fixpoint split_items (max_loop : nat) (seen rest : list string)
    : PyResult (list string) :=
  match rest with
  | [] => Ok seen
  | m :: rest' =>
      match max_loop with
      | O => Raise RuntimeError
      | S max_loop' =>
          if (String.length m <=? MAX_MESSAGE_LENGTH)%nat
          then split_items max_loop' (seen ++ [m]) rest'
          else
            let (kept, inserted) := split_item m in
            split_items max_loop' (seen ++ [kept]) (inserted :: rest')
      end
  end.

(** The [for i in range(len(message))] loop and the final [append]. *)
Fixpoint join_items (join_str : string) (message : list string)
    (split_messages : list string) (message_current : string) : list string :=
  match message with
  | [] => split_messages ++ [message_current]
  | m :: rest =>
      if (MAX_MESSAGE_LENGTH
          <? String.length message_current + String.length m + String.length join_str)%nat
      then join_items join_str rest (split_messages ++ [message_current])
             (EmptyString +:+ join_str +:+ m)
      else join_items join_str rest split_messages (message_current +:+ join_str +:+ m)
  end.

(** [split_message(message, join_str)].  The first loop rewrites the
    caller's list in place; [split_items] gives that list. *)
Definition split_message (message : list string) (join_str : string)
    : PyResult (list string) :=
  match split_items MAX_LOOP [] message with
  | Raise e => Raise e
  | Ok message' => Ok (join_items join_str message' [] EmptyString)
  end.

(** ** A concrete instance and sample inputs *)

Module Sample.

Record record := mkRecord { record_name : string; record_solved : bool }.
Record chapter := mkChapter { chapter_name : string; chapter_records : list record }.

Definition record_asdict (r : record) : json :=
  JObject [("name", JString (record_name r)); ("solved", JBool (record_solved r))].

Definition record_from_obj (o : json) : PyResult record :=
  match o with
  | JObject [("name", JString n); ("solved", JBool b)] => Ok (mkRecord n b)
  | JObject _ => Raise KeyError
  | _ => Raise TypeError
  end.

Definition chapter_asdict (c : chapter) : ChapterObj :=
  mkChapterObj (chapter_name c) (JArray (map record_asdict (chapter_records c))).

Definition chapter_from_obj (o : ChapterObj) : PyResult chapter :=
  match co_fields o with
  | JArray l => and_then (list_comprehension record_from_obj l) (fun rs =>
                Ok (mkChapter (co_name o) rs))
  | _ => Raise TypeError
  end.

#[local] Instance dataclasses : Dataclasses := {|
  ftd_NewsEntry := json;
  ftd_Image := ImageObj;
  ftd_ImageDescription := json;
  ftd_Chapter := chapter;
  ftd_Record := record;
  ftd_RecordText := RecordTextObj;
  ftd_SearchResult := json;
  PIL_Image := list Byte.byte;
  NewsEntry_from_obj := Ok;
  NewsEntry_asdict := id;
  Image_from_obj := Ok;
  Image_asdict := id;
  ImageDescription_from_obj := Ok;
  ImageDescription_asdict := id;
  Chapter_from_obj := chapter_from_obj;
  Chapter_asdict := chapter_asdict;
  Chapter_records := chapter_records;
  Record_from_obj := record_from_obj;
  Record_asdict := record_asdict;
  Record_name := record_name;
  Record_solved := record_solved;
  RecordText_from_obj := fun title o => Ok (mkRecordTextObj title (rto_fields o));
  RecordText_asdict := id;
  SearchResult_from_obj := Ok;
  SearchResult_asdict := id;
  PIL_open := Ok;
  PIL_save := id |}.

(** 2023-11-14 22:13:20 UTC, one microsecond per reading. *)
Definition clock0 (n : nat) : datetime := 1700000000000000 + Z.of_nat n.

Definition empty_fs : FS := mkFS ∅ ∅ ∅.

(** A new object over an empty cache directory. *)
Definition fresh : World := mkWorld init_attributes empty_fs [] clock0 0.

Definition image_a : ImageObj := mkImageObj "a" "/img/a.png" "/thumb/a.png" JNull.
Definition image_b : ImageObj := mkImageObj "b" "/img/b.png" "/thumb/b.png" JNull.
Definition image_c : ImageObj := mkImageObj "c" "/img/c.png" "/thumb/c.png" JNull.

(** An object whose images table holds one entry cached at the epoch, long
    expired at [clock0]. *)
Definition stale_images : World :=
  map_self (set_cached_images [(Some "a", (image_a, 0))]) fresh.


(** A response of the [full_episodic] endpoint: two chapters, two of whose
    three records are solved. *)
Definition chapters_response : list ChapterObj :=
  [ chapter_asdict (mkChapter "i" [mkRecord "r1" true; mkRecord "r2" false]);
    chapter_asdict (mkChapter "ii" [mkRecord "r3" true]) ].

(** An object that cached the image ["a"] and its alias under [None]. *)
Definition cached_image : World :=
  map_self (set_cached_images
              [(Some "a", (image_a, clock0 0)); (None, (image_a, clock0 0))]) fresh.





(** A cache directory whose image-contents index is not JSON. *)
Definition malformed_index_fs : FS :=
  mkFS {[ "__apicache__"; "__apicache__/cache_image_contents" ]}
       {[ "__apicache__/cache_image_contents.json" := Malformed ]}
       ∅.

Definition malformed_index : World :=
  mkWorld init_attributes malformed_index_fs [] clock0 0.

(** A cache directory whose records snapshot has NaN as a timestamp. *)
Definition bad_timestamp_fs : FS :=
  mkFS {[ "__apicache__" ]}
       {[ "__apicache__/cache_records.json" :=
            Wellformed (DocRecords [("r1", (record_asdict (mkRecord "r1" true), JNaN))]) ]}
       ∅.

Definition bad_timestamp : World := mkWorld init_attributes bad_timestamp_fs [] clock0 0.

(** A cache directory whose news snapshot has a string as its timestamp. *)
Definition string_timestamp_fs : FS :=
  mkFS {[ "__apicache__" ]}
       {[ "__apicache__/cache_news.json" := Wellformed (DocNews [] (JString "yesterday")) ]}
       ∅.

Definition string_timestamp : World :=
  mkWorld init_attributes string_timestamp_fs [] clock0 0.











(** A cache directory with a snapshot of the full record contents. *)
Definition full_record_contents_fs : FS :=
  mkFS {[ "__apicache__" ]}
       {[ "__apicache__/cache_full_record_contents.json" :=
            Wellformed (DocFullRecordContents
                          [("r1", mkRecordTextObj "title" JNull)] (JInt 0)) ]}
       ∅.

Definition full_record_contents_saved : World :=
  mkWorld init_attributes full_record_contents_fs [] clock0 0.

#[local] Instance fields : DataclassFields dataclasses := {|
  Image_name := io_name;
  Image_title := io_fields |}.

(** The chapters that [chapters_response] stands for. *)
Definition chapters_value : list chapter :=
  [ mkChapter "i" [mkRecord "r1" true; mkRecord "r2" false];
    mkChapter "ii" [mkRecord "r3" true] ].

(** An object that purged its images exactly one cooldown (1 h) before
    [clock0] and has cached an image since. *)
Definition cooldown_over : World :=
  map_self (fun s =>
    set_last_cache_purge [(IMAGES, clock0 0 - timedelta_hours 1)]
      (set_cached_images [(Some "a", (image_a, clock0 0 - 1000000))] s)) fresh.



(** A cache directory whose image-contents index lists an image without
    its files. *)
Definition orphan_index_fs : FS :=
  mkFS {[ "__apicache__"; "__apicache__/cache_image_contents" ]}
       {[ "__apicache__/cache_image_contents.json" :=
            Wellformed (DocImageContents [("a", JInt 0)]) ]}
       ∅.

Definition orphan_index : World := mkWorld init_attributes orphan_index_fs [] clock0 0.

(** An object that cached the record ["r1"] and a description of ["a"] at
    [clock0]. *)
Definition cached_record : World :=
  map_self (fun s =>
    set_cached_image_descriptions [("a", (JString "description", clock0 0))]
      (set_cached_records [("r1", (mkRecord "r1" true, clock0 0))] s)) cached_image.

(** A description object of the [image_description] endpoint. *)
Definition description_response : list (string * json) :=
  [("description", JString "a picture"); ("title", JNull)].

(** An item of 2000 characters without a newline or a space, and a list of
    one item more than the loop safeguard allows. *)
Definition long_item : string := string_of_list_ascii (List.repeat "a"%char 2000).
Definition many_items : list string := List.repeat EmptyString (S MAX_LOOP).




End Sample.

(** * Properties *)

(** ** Dictionaries *)

Section PyDictFacts.
Context {K V : Type} `{EqDecision K}.
Implicit Types (d : list (K * V)) (k : K) (v : V).

Lemma get_update_eq k v d : PyDict.get k (PyDict.update k v d) = Some v.
Proof.
  induction d as [|[k' v'] d IH]; simpl.
  - by rewrite decide_True.
  - destruct (decide (k = k')) as [->|Hne]; simpl.
    + by rewrite decide_True.
    + by rewrite decide_False.
Qed.

Lemma get_update_ne k k' v d :
  k <> k' -> PyDict.get k' (PyDict.update k v d) = PyDict.get k' d.
Proof.
  intros Hne. induction d as [|[k0 v0] d IH]; simpl.
  - rewrite decide_False; [done | congruence].
  - destruct (decide (k = k0)) as [->|Hne0]; simpl.
    + rewrite !decide_False; [done | congruence | congruence].
    + destruct (decide (k' = k0)); [done | apply IH].
Qed.

Lemma get_None_keys k d : PyDict.get k d = None <-> k ∉ PyDict.keys d.
Proof.
  unfold PyDict.keys. induction d as [|[k0 v0] d IH]; simpl.
  - split; [intros _; apply not_elem_of_nil | done].
  - rewrite not_elem_of_cons. destruct (decide (k = k0)) as [->|Hne].
    + split; [done | intros [? _]; done].
    + rewrite IH. tauto.
Qed.

Lemma update_fresh k v d : k ∉ PyDict.keys d -> PyDict.update k v d = d ++ [(k, v)].
Proof.
  unfold PyDict.keys. induction d as [|[k0 v0] d IH]; simpl; [done|].
  rewrite not_elem_of_cons. intros [Hne Hnotin].
  rewrite decide_False by done. by rewrite IH.
Qed.

Lemma length_update_present k v d :
  k ∈ PyDict.keys d -> length (PyDict.update k v d) = length d.
Proof.
  unfold PyDict.keys. induction d as [|[k0 v0] d IH]; simpl.
  - intros Hin. by apply elem_of_nil in Hin.
  - intros Hin. destruct (decide (k = k0)); simpl; [done|].
    apply elem_of_cons in Hin as [?|Hin]; [done|]. by rewrite IH.
Qed.

Lemma keys_update_present k v d :
  k ∈ PyDict.keys d -> PyDict.keys (PyDict.update k v d) = PyDict.keys d.
Proof.
  unfold PyDict.keys. induction d as [|[k0 v0] d IH]; simpl.
  - intros Hin. by apply elem_of_nil in Hin.
  - intros Hin. destruct (decide (k = k0)) as [->|Hne]; simpl; [done|].
    apply elem_of_cons in Hin as [?|Hin]; [done|]. f_equal. by apply IH.
Qed.

Lemma length_pop_present k d :
  k ∈ PyDict.keys d -> S (length (PyDict.pop k d)) = length d.
Proof.
  unfold PyDict.keys. induction d as [|[k0 v0] d IH]; simpl.
  - intros Hin. by apply elem_of_nil in Hin.
  - intros Hin. destruct (decide (k = k0)); simpl; [done|].
    apply elem_of_cons in Hin as [?|Hin]; [done|]. by rewrite IH.
Qed.

(** Storing pairs with distinct fresh keys appends them in order. *)
Lemma fold_update_fresh (l acc : list (K * V)) :
  NoDup (PyDict.keys (acc ++ l)) ->
  fold_left (fun d kv => PyDict.update kv.1 kv.2 d) l acc = acc ++ l.
Proof.
  revert acc. induction l as [|[k v] l IH]; intros acc Hnd; simpl.
  - by rewrite app_nil_r.
  - assert (k ∉ PyDict.keys acc) as Hk.
    { unfold PyDict.keys in *. rewrite fmap_app in Hnd.
      apply NoDup_app in Hnd as (_ & Hdisj & _).
      intros Hin. apply (Hdisj _ Hin). simpl. apply elem_of_cons. by left. }
    rewrite update_fresh by done. rewrite IH.
    + by rewrite <- app_assoc.
    + by rewrite <- app_assoc.
Qed.

End PyDictFacts.

Section Properties.
Context {ftd : Dataclasses}.

(** ** Purging *)


(** Every cache but the full record contents is emptied by a forced purge,
    and the images and chapters purges reset their markers. *)
Lemma purge_cache_clears (cache : CacheTypes) (w : World) :
  cache <> CACHE_METADATA -> cache <> FULL_RECORD_CONTENTS ->
  let s' := self (purge_cache cache true w).2 in
  table_empty cache s'
  /\ (cache = IMAGES -> last_all_images_cache s' = Unset)
  /\ (cache = CHAPTERS -> last_full_episodic_cache s' = Unset).
Proof. intros ? ?. destruct cache; try congruence; repeat split; done. Qed.

(** C2.  [purge_cache(FULL_RECORD_CONTENTS, force_purge=True)] succeeds and
    records the purge time, yet the full-record-contents table is left as it
    was: the assignment goes to the attribute [__full_record_contents], not to
    [__cached_full_record_contents]. *)
Theorem purge_full_record_contents_keeps_table (w : World) :
  exists w', purge_cache FULL_RECORD_CONTENTS true w = (Ok tt, w')
    /\ cached_full_record_contents (self w') = cached_full_record_contents (self w)
    /\ full_record_contents (self w') = Some None
    /\ PyDict.get FULL_RECORD_CONTENTS (last_cache_purge (self w'))
       = Some (clock w (ticks w)).
Proof.
  eexists. split; [reflexivity|]. simpl. repeat split. apply get_update_eq.
Qed.

(** Within the cooldown an unforced purge raises after reading the clock
    once and changes nothing else. *)
Lemma purge_cache_blocked (cache : CacheTypes) (w : World)
    (last : datetime) (cooldown : timedelta) :
  PyDict.get cache (last_cache_purge (self w)) = Some last ->
  CACHE_PURGE_COOLDOWN cache = Some cooldown ->
  clock w (ticks w) < last + cooldown ->
  purge_cache cache false w
  = (Raise (CachePurgeError CACHE_PURGE (Some (last + cooldown))), tick w).
Proof.
  intros Hlast Hcd Hnow.
  unfold purge_cache, check_purge_cooldown, bind, get_self, now, getitem. simpl.
  rewrite Hlast, Hcd. simpl.
  by apply Z.ltb_lt in Hnow as ->.
Qed.


(** Once the cooldown has passed, or when no purge is recorded, the unforced
    purge goes through like the forced one, one clock reading later. *)
Lemma purge_cache_after_cooldown (cache : CacheTypes) (w : World)
    (last : datetime) (cooldown : timedelta) :
  PyDict.get cache (last_cache_purge (self w)) = Some last ->
  CACHE_PURGE_COOLDOWN cache = Some cooldown ->
  last + cooldown <= clock w (ticks w) ->
  exists w', purge_cache cache false w = (Ok tt, w')
    /\ PyDict.get cache (last_cache_purge (self w')) = Some (clock w (S (ticks w))).
Proof.
  intros Hlast Hcd Hnow.
  assert ((clock w (ticks w) <? last + cooldown) = false) as Hlt by (apply Z.ltb_ge; lia).
  destruct cache; try discriminate;
    unfold purge_cache, check_purge_cooldown, bind, get_self, now, getitem; simpl;
    rewrite Hlast; simpl; simpl in Hcd; injection Hcd as <-; rewrite Hlt; simpl;
    (eexists; split; [reflexivity|]); simpl; apply get_update_eq.
Qed.


(** ** Introspection *)

Lemma for_items_size_changed {K E : Type} (used : nat) (rest : list (K * E)) body d :
  length d <> used -> for_items used rest body d = Raise RuntimeError.
Proof.
  intros Hne. destruct rest as [|[i j] rest]; simpl;
    by apply Nat.eqb_neq in Hne as ->.
Qed.

(** Popping during the iteration: the iterator's next step raises. *)
Lemma for_items_stale_raises {K V : Type} `{EqDecision K}
    (t_now : datetime) (duration : timedelta) (rest d : list (K * item V)) :
  PyDict.keys rest ⊆ PyDict.keys d ->
  Exists (fun kv => item_cached_at kv.2 + duration < t_now) rest ->
  for_items (length d) rest (annotate_step false t_now duration) d = Raise RuntimeError.
Proof.
  revert d. induction rest as [|[i j] rest IH]; intros d Hsub Hex.
  - by apply Exists_nil in Hex.
  - simpl. rewrite Nat.eqb_refl. simpl.
    assert (i ∈ PyDict.keys d) as Hi.
    { apply Hsub. unfold PyDict.keys. simpl. apply elem_of_cons. by left. }
    unfold annotate_step at 2. simpl.
    destruct (item_cached_at j + duration <? t_now) eqn:Hstale.
    + apply for_items_size_changed.
      pose proof (length_pop_present i d Hi). lia.
    + set (d' := PyDict.update i _ d).
      assert (length d' = length d) as Hlen by (by apply length_update_present).
      rewrite <- Hlen. apply IH.
      * unfold d'. rewrite keys_update_present by done.
        intros k Hk. apply Hsub. unfold PyDict.keys in *. simpl.
        apply elem_of_cons. by right.
      * apply Exists_cons in Hex as [Hhd|Htl]; [|done].
        simpl in Hhd. apply Z.ltb_ge in Hstale. lia.
Qed.

Lemma annotate_dict_stale_raises {K V : Type} `{EqDecision K}
    (t_now : datetime) (duration : timedelta) (table : list (K * (V * datetime)))
    (t : datetime) :
  t ∈ table.*2.*2 -> t + duration < t_now ->
  annotate_dict false t_now duration table = Raise RuntimeError.
Proof.
  intros Hin Hstale. unfold annotate_dict.
  apply (for_items_stale_raises t_now duration); [done|].
  apply Exists_exists.
  apply list_elem_of_fmap in Hin as ([v t'] & -> & Hin).
  apply list_elem_of_fmap in Hin as ([k vt] & Heq & Hin). simpl in Heq. subst vt.
  exists (k, Cached v t'). split; [|done].
  apply list_elem_of_In, in_map_iff.
  exists (k, (v, t')). split; [done|]. by apply list_elem_of_In.
Qed.

(** C1.  For a map-keyed cache whose table holds a stale entry,
    [get_cached_items] with [ignore_stale] false does not return the fresh
    entries: popping the stale entry from the copy while iterating over it
    raises [RuntimeError].  The object's attributes are not changed. *)
Theorem get_cached_items_stale_entry (cache : CacheTypes) (w : World)
    (duration : timedelta) (t : datetime) :
  cache ∈ map_keyed ->
  CACHE_DURATION cache = Some duration ->
  t ∈ cached_times cache (self w) ->
  t + duration < clock w (ticks w) ->
  (get_cached_items cache false w).1 = Raise RuntimeError
  /\ self (get_cached_items cache false w).2 = self w.
Proof.
  intros Hc Hd Hin Hstale.
  unfold map_keyed in Hc. repeat (apply elem_of_cons in Hc as [->|Hc]);
    [..|by apply elem_of_nil in Hc];
    simpl in Hd; injection Hd as <-;
    unfold get_cached_items, bind, now, get_self, getitem, lift; simpl;
    erewrite annotate_dict_stale_raises by eassumption; done.
Qed.

Lemma update_app_present {K V : Type} `{EqDecision K} (k : K) (v v0 : V)
    (l1 l2 : list (K * V)) :
  k ∉ PyDict.keys l1 ->
  PyDict.update k v (l1 ++ (k, v0) :: l2) = l1 ++ (k, v) :: l2.
Proof.
  unfold PyDict.keys. induction l1 as [|[k1 v1] l1 IH]; simpl.
  - intros _. by rewrite decide_True.
  - rewrite not_elem_of_cons. intros [Hne Hnotin].
    rewrite decide_False by done. by rewrite IH.
Qed.

(** Without a pop the loop replaces every pair by its triple, in place. *)
Lemma for_items_annotates {K V : Type} `{EqDecision K} (ignore_stale : bool)
    (t_now : datetime) (duration : timedelta) (seen rest : list (K * item V)) :
  NoDup (PyDict.keys (seen ++ rest)) ->
  Forall (fun kv => negb ignore_stale && (item_cached_at kv.2 + duration <? t_now) = false)
         rest ->
  for_items (length (seen ++ rest)) rest (annotate_step ignore_stale t_now duration)
    (seen ++ rest)
  = Ok (seen ++ map (fun kv => (kv.1, item_append kv.2 (item_cached_at kv.2 + duration)))
                    rest).
Proof.
  revert seen. induction rest as [|[i j] rest IH]; intros seen Hnd Hfresh.
  - simpl. by rewrite Nat.eqb_refl.
  - simpl. rewrite Nat.eqb_refl. simpl.
    apply Forall_cons in Hfresh as [Hhd Htl]. simpl in Hhd.
    unfold annotate_step at 2. rewrite Hhd.
    assert (i ∉ PyDict.keys seen) as Hi.
    { unfold PyDict.keys in *. rewrite fmap_app in Hnd.
      apply NoDup_app in Hnd as (_ & Hdisj & _).
      intros Hin. apply (Hdisj _ Hin). simpl. apply elem_of_cons. by left. }
    rewrite update_app_present by done.
    set (j' := item_append j _).
    replace (length (seen ++ (i, j) :: rest))
      with (length ((seen ++ [(i, j')]) ++ rest))
      by (rewrite !length_app; simpl; lia).
    replace (seen ++ (i, j') :: rest) with ((seen ++ [(i, j')]) ++ rest)
      by (by rewrite <- app_assoc).
    rewrite IH; [by rewrite <- app_assoc | | done].
    unfold PyDict.keys in *. rewrite <- app_assoc. simpl.
    by rewrite !fmap_app in *.
Qed.

Lemma annotate_dict_no_pop {K V : Type} `{EqDecision K} (ignore_stale : bool)
    (t_now : datetime) (duration : timedelta) (table : list (K * (V * datetime))) :
  NoDup (PyDict.keys table) ->
  ignore_stale = true \/ Forall (fun t => t_now <= t + duration) table.*2.*2 ->
  annotate_dict ignore_stale t_now duration table = Ok (annotate_all duration table).
Proof.
  intros Hnd Hfresh. unfold annotate_dict, annotate_all.
  set (copy := map _ table).
  pose proof (for_items_annotates ignore_stale t_now duration [] copy) as Hloop.
  simpl in Hloop. rewrite Hloop.
  - f_equal. unfold copy. rewrite map_map. done.
  - unfold copy, PyDict.keys in *. by rewrite <- list_fmap_compose.
  - unfold copy. apply Forall_forall. intros [k j] Hin.
    apply list_elem_of_In, in_map_iff in Hin as ([k' [v t]] & Heq & Hin).
    simpl in Heq. injection Heq as <- <-. simpl.
    destruct Hfresh as [->|Hall]; [done|].
    destruct ignore_stale; [done|]. simpl. apply Z.ltb_ge.
    rewrite Forall_forall in Hall. apply Hall.
    apply list_elem_of_fmap. exists (v, t). split; [done|].
    apply list_elem_of_fmap. exists (k', (v, t)). split; [done|].
    by apply list_elem_of_In.
Qed.

(** An example of the working case: the images cache when stale entries are
    kept or there is none. *)
Lemma get_cached_items_images_no_pop (w : World) (ignore_stale : bool) :
  NoDup (PyDict.keys (cached_images (self w))) ->
  ignore_stale = true
  \/ Forall (fun t => clock w (ticks w) <= t + timedelta_hours 12)
            (cached_times IMAGES (self w)) ->
  (get_cached_items IMAGES ignore_stale w).1
    = Ok (ImageItems (annotate_all (timedelta_hours 12) (cached_images (self w))))
  /\ self (get_cached_items IMAGES ignore_stale w).2 = self w.
Proof.
  intros Hnd Hfresh.
  unfold get_cached_items, bind, now, get_self, getitem, lift. simpl.
  by rewrite annotate_dict_no_pop.
Qed.

(** C7.  With a "last full fetch" attribute still [None],
    [get_cached_items] on the metadata raises [TypeError] for adding a
    [timedelta] to [None]; it returns no markers and no purge map. *)
Theorem get_cached_items_metadata_unset (w : World) (ignore_stale : bool) :
  last_all_images_cache (self w) = Unset
  \/ last_full_episodic_cache (self w) = Unset ->
  (get_cached_items CACHE_METADATA ignore_stale w).1 = Raise TypeError.
Proof.
  intros Hunset.
  unfold get_cached_items, annotate_marker, bind, now, get_self, getitem. simpl.
  destruct Hunset as [-> | ->]; [done|].
  by destruct (last_all_images_cache (self w)).
Qed.

Lemma purge_times_ok (l : list (CacheTypes * datetime))
    (acc : list (CacheTypes * (datetime * datetime))) (w : World) :
  Forall (fun c => c <> CACHE_METADATA) (PyDict.keys l) ->
  exists purges, purge_times l acc w = (Ok purges, w).
Proof.
  revert acc. induction l as [|[c t] l IH]; intros acc Hall; simpl.
  - by exists acc.
  - unfold PyDict.keys in Hall. simpl in Hall. apply Forall_cons in Hall as [Hc Hall].
    unfold bind, getitem. destruct c; try congruence; simpl; by apply IH.
Qed.

(** With both attributes set, and every recorded purge converted, the
    metadata view is returned. *)
Lemma get_cached_items_metadata_set (w : World) (ignore_stale : bool)
    (t_images t_episodic : datetime) :
  last_all_images_cache (self w) = At t_images ->
  last_full_episodic_cache (self w) = At t_episodic ->
  last_cache_purge_undecoded (self w) = [] ->
  Forall (fun c => c <> CACHE_METADATA) (PyDict.keys (last_cache_purge (self w))) ->
  exists purges,
    (get_cached_items CACHE_METADATA ignore_stale w).1
    = Ok (MetadataItems (t_images, t_images + timedelta_hours 12)
            (t_episodic, t_episodic + timedelta_hours 12) purges).
Proof.
  intros Hi He Hu Hkeys.
  unfold get_cached_items, annotate_marker, annotate_purges, bind, now, get_self,
    getitem, ret.
  simpl. rewrite Hi, He, Hu. simpl.
  destruct (purge_times_ok (last_cache_purge (self w)) [] (tick w) Hkeys)
    as (purges & ->).
  by exists purges.
Qed.

(** ** Saving *)

(** The two definitions of the save tie the recursion of [__save_cache]:
    the call it makes on itself is the metadata save, which makes none. *)
Lemma save_cache_metadata_eq (w : World) :
  save_cache CACHE_METADATA w = save_cache_metadata w.
Proof.
  unfold save_cache, save_cache_metadata, save_cache_body.
  destruct (decide (CACHE_METADATA = IMAGE_CONTENTS)) as [?|_]; [done|].
  destruct (decide (CACHE_METADATA <> CACHE_METADATA)) as [Hne|_]; [by destruct Hne|].
  done.
Qed.

Lemma save_cache_unfold (cache : CacheTypes) (w : World) :
  save_cache cache w = save_cache_body save_cache cache w.
Proof.
  unfold save_cache at 1. unfold save_cache_body.
  destruct (decide (cache = IMAGE_CONTENTS)); [done|].
  unfold bind. destruct (modify_fs _ w) as [[[]|] w1]; [|done].
  destruct (modify_fs _ w1) as [[[]|] w2]; [|done].
  destruct (get_self w2) as [[s|] w3]; [|done].
  destruct (cache_document cache s w3) as [[doc|] w4]; [|done].
  destruct (modify_fs _ w4) as [[[]|] w5]; [|done].
  destruct (decide (cache <> CACHE_METADATA)); [|done].
  by rewrite save_cache_metadata_eq.
Qed.

Lemma bind_ok {A B : Type} (m : M A) (k : A -> M B) (w w' : World) (a : A) :
  m w = (Ok a, w') -> bind m k w = k a w'.
Proof. intros Hm. unfold bind. by rewrite Hm. Qed.

Lemma bind_raise {A B : Type} (m : M A) (k : A -> M B) (w w' : World) (e : exn) :
  m w = (Raise e, w') -> bind m k w = (Raise e, w').
Proof. intros Hm. unfold bind. by rewrite Hm. Qed.

(** Building the document reads the attributes only. *)
Lemma cache_document_pure (cache : CacheTypes) (s : API) (w w' : World) :
  cache_document cache s w = ((cache_document cache s w').1, w).
Proof.
  destruct cache; simpl; try done.
  - by destruct (cached_news_items s).
  - by destruct (cached_chapters s).
  - by destruct (cached_full_record_contents s).
  - unfold bind, marker_timestamp.
    destruct (last_all_images_cache s); simpl; try done;
      destruct (last_full_episodic_cache s); simpl; try done;
      by destruct (last_cache_purge_undecoded s).
Qed.

Lemma cache_document_metadata (s : API) (w : World) :
  metadata_decoded s ->
  cache_document CACHE_METADATA s w = (Ok (metadata_document s), w).
Proof.
  intros (Hi & He & Hu). unfold metadata_document. simpl.
  unfold bind, marker_timestamp. rewrite Hu.
  destruct (last_all_images_cache s) as [|t|j]; [| |by destruct (Hi j)];
    (destruct (last_full_episodic_cache s) as [|t'|j']; [| |by destruct (He j')]);
    done.
Qed.

Lemma save_cache_metadata_run (w : World) :
  metadata_decoded (self w) ->
  save_cache_metadata w = (Ok tt, map_fs (metadata_written (self w)) w).
Proof.
  intros Hdec. unfold save_cache_metadata, save_cache_body.
  rewrite decide_False by done.
  unfold bind, modify_fs, get_self. cbn [self map_fs].
  rewrite cache_document_metadata by done.
  by rewrite decide_False by (intros H; by apply H).
Qed.

Lemma save_cache_run (cache : CacheTypes) (doc : Document) (w : World) :
  cache <> IMAGE_CONTENTS -> cache <> CACHE_METADATA ->
  metadata_decoded (self w) ->
  (cache_document cache (self w) w).1 = Ok doc ->
  save_cache cache w = (Ok tt, map_fs (document_written cache doc (self w)) w).
Proof.
  intros Hi Hm Hdec Hdoc. unfold save_cache, save_cache_body.
  rewrite decide_False by done.
  unfold bind at 1, modify_fs at 1. unfold bind at 1, modify_fs at 1.
  unfold bind at 1, get_self at 1. unfold bind at 1.
  cbn [self map_fs].
  rewrite (cache_document_pure cache (self w) _ w), Hdoc.
  unfold bind, modify_fs. rewrite decide_True by done.
  by rewrite save_cache_metadata_run.
Qed.

(** ** Fetching *)

Lemma needs_refresh_due (x : marker) (cache : CacheTypes) (w : World) :
  refresh_due x cache w ->
  needs_refresh x cache w = (Ok true, after_check x w).
Proof.
  intros [-> | (last & duration & -> & Hd & Hlt)]; [done|].
  unfold needs_refresh, bind, now, getitem. rewrite Hd. simpl.
  unfold ret. by apply Z.ltb_lt in Hlt as ->.
Qed.

Lemma store_images_run (cache_time : datetime) (images : list ImageObj)
    (values : list ftd_Image) (w : World) :
  Forall2 (fun o v => Image_from_obj (resolve_urls o) = Ok v) images values ->
  store_images cache_time images w
  = (Ok tt,
     map_self (fun s =>
       set_cached_images
         (fold_left (fun d kv => PyDict.update kv.1 kv.2 d)
            (image_entries cache_time images values) (cached_images s)) s) w).
Proof.
  intros Hall. revert w. induction Hall as [|o v images values Hov Hall IH]; intros w.
  - simpl. unfold ret. by destruct w as [[] ? ? ? ?].
  - simpl. unfold bind, lift. rewrite Hov. unfold modify_self. rewrite IH. done.
Qed.

(** Whatever happens while the images are stored, only the images table is
    touched. *)
Lemma store_images_frame (cache_time : datetime) (images : list ImageObj) (w : World) :
  exists table,
    (store_images cache_time images w).2 = map_self (set_cached_images table) w.
Proof.
  revert w. induction images as [|o images IH]; intros w.
  - exists (cached_images (self w)). simpl. by destruct w as [[] ? ? ? ?].
  - simpl. unfold bind, lift.
    destruct (Image_from_obj (resolve_urls o)) as [v|e].
    + unfold modify_self.
      destruct (IH (map_self (fun s =>
          set_cached_images
            (PyDict.update (Some (io_name (resolve_urls o))) (v, cache_time)
               (cached_images s)) s) w)) as (table & Htable).
      exists table. etrans; [exact Htable|done].
    + exists (cached_images (self w)). simpl. by destruct w as [[] ? ? ? ?].
Qed.

Lemma dict_comprehension_ok {A K V : Type} `{EqDecision K}
    (f : A -> PyResult (K * V)) (l : list A) (kvs acc : list (K * V)) :
  Forall2 (fun x kv => f x = Ok kv) l kvs ->
  dict_comprehension f l acc
  = Ok (fold_left (fun d kv => PyDict.update kv.1 kv.2 d) kvs acc).
Proof.
  intros Hall. revert acc. induction Hall as [|x kv l kvs Hx Hall IH]; intros acc.
  - done.
  - simpl. by rewrite Hx, IH.
Qed.

Lemma store_solved_records_fold (cache_time : datetime) (chapters : list ftd_Chapter)
    (table : list (string * (ftd_Record * datetime))) :
  store_solved_records cache_time chapters table
  = fold_left (fun d kv => PyDict.update kv.1 kv.2 d)
      (record_entries cache_time (solved_records chapters)) table.
Proof.
  unfold store_solved_records, solved_records, record_entries.
  revert table. induction chapters as [|c chapters IH]; intros table; [done|].
  simpl. rewrite IH. rewrite List.filter_app, map_app, fold_left_app.
  f_equal. generalize (Chapter_records c) as records. clear.
  intros records. revert table. induction records as [|r records IH]; intros table; [done|].
  simpl. destruct (Record_solved r); simpl; by rewrite IH.
Qed.
Lemma after_check_cases (x : marker) (w : World) :
  after_check x w = w \/ after_check x w = tick w.
Proof. destruct x; auto. Qed.

Lemma purge_images_run (w : World) :
  purge_cache IMAGES true w
  = (Ok tt,
     map_self (fun s =>
       set_last_cache_purge
         (PyDict.update IMAGES (clock w (ticks w)) (last_cache_purge s))
         (set_last_all_images_cache Unset (set_cached_images [] s))) (tick w)).
Proof. done. Qed.

Lemma image_entries_keys (cache_time : datetime) (images : list ImageObj)
    (values : list ftd_Image) :
  length images = length values ->
  PyDict.keys (image_entries cache_time images values) = map (fun o => Some (io_name o)) images.
Proof.
  revert values. induction images as [|o images IH]; intros [|v values] Hlen;
    simpl in *; try done.
  unfold PyDict.keys in *. simpl. f_equal. apply IH. lia.
Qed.

Lemma image_entries_values (cache_time : datetime) (images : list ImageObj)
    (values : list ftd_Image) :
  length images = length values ->
  map (fun ij => ij.2.1)
    (List.filter (fun ij : option string * (ftd_Image * datetime) =>
                    bool_decide (ij.1 <> None))
       (image_entries cache_time images values))
  = values.
Proof.
  revert values. induction images as [|o images IH]; intros [|v values] Hlen;
    simpl in *; try done.
  f_equal. apply IH. lia.
Qed.

(** C9.  An all-images fetch on the refresh path, answered with a non-empty
    list of images with distinct names, replaces the images table: no
    earlier entry remains, there is one entry per returned image, stamped
    with the fetch's cache time, and one more under the key [None] whose
    value is that of the first returned image. *)
Theorem get_all_images_refresh (w : World) (a : ImageObj) (rest : list ImageObj)
    (values : list ftd_Image) :
  refresh_due (last_all_images_cache (self w)) IMAGES w ->
  (forall j, last_full_episodic_cache (self w) <> Undecoded j) ->
  last_cache_purge_undecoded (self w) = [] ->
  NoDup (map io_name (a :: rest)) ->
  Forall2 (fun o v => Image_from_obj (resolve_urls o) = Ok v) (a :: rest) values ->
  let w0 := after_check (last_all_images_cache (self w)) w in
  let cache_time := clock w (ticks w0) in
  exists w' first,
    get_all_images (Ok (a :: rest)) w = (Ok values, w')
    /\ Image_from_obj (resolve_urls a) = Ok first
    /\ cached_images (self w')
       = image_entries cache_time (a :: rest) values ++ [(None, (first, cache_time))]
    /\ last_all_images_cache (self w') = At cache_time
    /\ PyDict.get IMAGES (last_cache_purge (self w')) = Some (clock w (S (ticks w0))).
Proof.
  intros Hdue Hfull Hund Hnd Hall w0 cache_time.
  pose proof (needs_refresh_due _ _ _ Hdue) as Hcheck. fold w0 in Hcheck.
  assert (w0 = w \/ w0 = tick w) as Hw0 by apply after_check_cases.
  clearbody w0.
  assert (length (a :: rest) = length values) as Hlen by (by eapply Forall2_length).
  destruct values as [|first values']; [done|].
  assert (Image_from_obj (resolve_urls a) = Ok first) as Hfirst
    by (by apply Forall2_cons_1 in Hall as [? _]).
  set (entries := image_entries cache_time (a :: rest) (first :: values')).
  assert (NoDup (PyDict.keys entries)) as Hkeys.
  { unfold entries. rewrite image_entries_keys by done.
    rewrite <- (map_map io_name Some). apply (NoDup_fmap_2 Some), Hnd. }
  assert (None ∉ PyDict.keys entries) as Hnone.
  { unfold entries. rewrite image_entries_keys by done.
    intros Hin. apply list_elem_of_In, in_map_iff in Hin as (? & ? & _). done. }
  unfold get_all_images, bind, get_self, lift, now.
  rewrite Hcheck. cbv beta iota.
  rewrite purge_images_run. cbv beta iota.
  rewrite (store_images_run _ _ (first :: values')) by done. cbv beta iota.
  assert (clock w0 = clock w /\ self w0 = self w) as [Hclk Hself]
    by (by destruct Hw0 as [-> | ->]).
  rewrite Hclk. fold cache_time. fold entries.
  cbn [self map_self cached_images set_cached_images set_last_cache_purge
       set_last_all_images_cache].
  rewrite (fold_update_fresh entries []) by done. rewrite app_nil_l.
  unfold modify_self, ret.
  assert (PyDict.values entries = (first, cache_time) :: PyDict.values
            (image_entries cache_time rest values')) as -> by done.
  cbv beta iota.
  cbn [self map_self cached_images set_cached_images set_last_cache_purge
       set_last_all_images_cache].
  erewrite save_cache_run; [| done | done | | reflexivity].
  - eexists _, first. split; [|split; [done|]].
    + f_equal.
      cbn [map_fs self map_self cached_images set_cached_images
           set_last_all_images_cache set_last_cache_purge].
      rewrite (fold_update_fresh entries []) by done. rewrite app_nil_l.
      rewrite update_fresh by done.
      rewrite List.filter_app, map_app. unfold entries.
      rewrite image_entries_values by done. simpl. by rewrite app_nil_r.
    + cbn [map_fs self map_self cached_images set_cached_images
           set_last_all_images_cache set_last_cache_purge last_all_images_cache
           last_cache_purge].
      rewrite (fold_update_fresh entries []) by done. rewrite app_nil_l.
      rewrite update_fresh by done.
      repeat split. rewrite get_update_eq. f_equal.
      by destruct Hw0 as [-> | ->].
  - repeat split; cbn; try done.
    + by rewrite Hself.
    + by rewrite Hself.
Qed.

Lemma purge_chapters_run (w : World) :
  purge_cache CHAPTERS true w
  = (Ok tt,
     map_self (fun s =>
       set_last_cache_purge
         (PyDict.update CHAPTERS (clock w (ticks w)) (last_cache_purge s))
         (set_last_full_episodic_cache Unset (set_cached_chapters None s))) (tick w)).
Proof. done. Qed.

Lemma purge_records_run (w : World) :
  purge_cache RECORDS true w
  = (Ok tt,
     map_self (fun s =>
       set_last_cache_purge
         (PyDict.update RECORDS (clock w (ticks w)) (last_cache_purge s))
         (set_cached_records [] s)) (tick w)).
Proof. done. Qed.

Lemma chapter_entries_keys (chapters_list : list ChapterObj) (chapters : list ftd_Chapter) :
  length chapters_list = length chapters ->
  PyDict.keys (chapter_entries chapters_list chapters) = map co_name chapters_list.
Proof.
  revert chapters. induction chapters_list as [|o l IH]; intros [|v chapters] Hlen;
    simpl in *; try done.
  unfold PyDict.keys in *. simpl. f_equal. apply IH. lia.
Qed.

Lemma chapter_entries_values (chapters_list : list ChapterObj) (chapters : list ftd_Chapter) :
  length chapters_list = length chapters ->
  PyDict.values (chapter_entries chapters_list chapters) = chapters.
Proof.
  revert chapters. induction chapters_list as [|o l IH]; intros [|v chapters] Hlen;
    simpl in *; try done.
  unfold PyDict.values in *. simpl. f_equal. apply IH. lia.
Qed.

Lemma chapters_comprehension (chapters_list : list ChapterObj) (chapters : list ftd_Chapter) :
  Forall2 (fun o v => Chapter_from_obj o = Ok v) chapters_list chapters ->
  NoDup (map co_name chapters_list) ->
  dict_comprehension
    (fun chapter => and_then (Chapter_from_obj chapter) (fun v => Ok (co_name chapter, v)))
    chapters_list []
  = Ok (chapter_entries chapters_list chapters).
Proof.
  intros Hall Hnd.
  rewrite (dict_comprehension_ok _ _ (chapter_entries chapters_list chapters)).
  - rewrite fold_update_fresh; [done|]. simpl.
    rewrite chapter_entries_keys; [done | by eapply Forall2_length].
  - clear Hnd. induction Hall as [|o v l chapters Hov Hall IH]; simpl.
    + constructor.
    + constructor; [by rewrite Hov | done].
Qed.

(** C8.  A full-episodic fetch on the refresh path, answered with chapters
    of distinct names whose solved records have distinct names, purges the
    chapters and the records cache and leaves in the records table exactly
    the solved records of the returned chapters, each stamped with the one
    cache time read for the fetch. *)
Theorem get_full_episodic_refresh (w : World) (chapters_list : list ChapterObj)
    (chapters : list ftd_Chapter) :
  refresh_due (last_full_episodic_cache (self w)) CHAPTERS w ->
  (forall j, last_all_images_cache (self w) <> Undecoded j) ->
  last_cache_purge_undecoded (self w) = [] ->
  Forall2 (fun o v => Chapter_from_obj o = Ok v) chapters_list chapters ->
  NoDup (map co_name chapters_list) ->
  NoDup (map Record_name (solved_records chapters)) ->
  let w0 := after_check (last_full_episodic_cache (self w)) w in
  let cache_time := clock w (ticks w0) in
  exists w',
    get_full_episodic (Ok chapters_list) w = (Ok chapters, w')
    /\ cached_records (self w') = record_entries cache_time (solved_records chapters)
    /\ length (cached_records (self w')) = length (solved_records chapters)
    /\ cached_chapters (self w') = Some (chapter_entries chapters_list chapters, cache_time)
    /\ last_full_episodic_cache (self w') = At cache_time
    /\ PyDict.get CHAPTERS (last_cache_purge (self w')) = Some (clock w (S (ticks w0)))
    /\ PyDict.get RECORDS (last_cache_purge (self w')) = Some (clock w (S (S (ticks w0)))).
Proof.
  intros Hdue Himages Hund Hall Hnd Hrec w0 cache_time.
  pose proof (needs_refresh_due _ _ _ Hdue) as Hcheck. fold w0 in Hcheck.
  assert (w0 = w \/ w0 = tick w) as Hw0 by apply after_check_cases.
  clearbody w0.
  assert (length chapters_list = length chapters) as Hlen by (by eapply Forall2_length).
  assert (clock w0 = clock w /\ self w0 = self w) as [Hclk Hself]
    by (by destruct Hw0 as [-> | ->]).
  set (entries := record_entries cache_time (solved_records chapters)).
  assert (NoDup (PyDict.keys entries)) as Hkeys.
  { unfold entries, record_entries, PyDict.keys.
    rewrite <- list_fmap_compose. exact Hrec. }
  unfold get_full_episodic, bind, get_self, lift, now.
  rewrite Hcheck. cbv beta iota.
  rewrite purge_chapters_run. cbv beta iota.
  rewrite purge_records_run. cbv beta iota.
  rewrite (chapters_comprehension _ chapters) by done.
  unfold modify_self. cbv beta iota.
  rewrite Hclk. fold cache_time.
  erewrite (save_cache_run CHAPTERS); [| done | done | | reflexivity].
  - cbv beta iota.
    erewrite (save_cache_run RECORDS); [| done | done | | reflexivity].
    + cbv beta iota.
      cbn [map_fs self map_self cached_records set_cached_records cached_chapters
           set_cached_chapters set_last_full_episodic_cache set_last_cache_purge
           last_full_episodic_cache last_cache_purge fst snd].
      rewrite chapter_entries_values by done.
      rewrite store_solved_records_fold. fold entries.
      rewrite (fold_update_fresh entries []) by done. rewrite app_nil_l.
      unfold ret.
      eexists. split; [reflexivity|].
      cbn [map_fs self map_self cached_records set_cached_records cached_chapters
           set_cached_chapters set_last_full_episodic_cache set_last_cache_purge
           last_full_episodic_cache last_cache_purge fst snd tick clock ticks].
      rewrite store_solved_records_fold. fold entries.
      rewrite (fold_update_fresh entries []) by done. rewrite app_nil_l.
      repeat split.
      * unfold entries, record_entries. by rewrite length_map.
      * rewrite get_update_ne by done. rewrite get_update_eq.
        f_equal. by destruct Hw0 as [-> | ->].
      * rewrite get_update_eq. f_equal. by destruct Hw0 as [-> | ->].
    + repeat split; cbn; try done; by rewrite Hself.
  - repeat split; cbn; try done; by rewrite Hself.
Qed.

(** Saving a JSON cache changes the cache directory only, whether or not it
    raises. *)
Lemma save_cache_metadata_frame (w : World) :
  exists f', (save_cache_metadata w).2 = map_fs (fun _ => f') w.
Proof.
  unfold save_cache_metadata, save_cache_body. rewrite decide_False by done.
  unfold bind, modify_fs, get_self. cbn [self map_fs].
  rewrite (cache_document_pure CACHE_METADATA (self w) _ w).
  destruct (cache_document CACHE_METADATA (self w) w).1 as [doc|e].
  - rewrite decide_False by (intros H; by apply H). by eexists.
  - by eexists.
Qed.

Lemma save_cache_frame (cache : CacheTypes) (w : World) :
  cache <> IMAGE_CONTENTS ->
  exists f', (save_cache cache w).2 = map_fs (fun _ => f') w.
Proof.
  intros Hc. unfold save_cache, save_cache_body. rewrite decide_False by done.
  unfold bind, modify_fs, get_self. cbn [self map_fs].
  rewrite (cache_document_pure cache (self w) _ w).
  destruct (cache_document cache (self w) w).1 as [doc|e]; [|by eexists].
  destruct (decide (cache <> CACHE_METADATA)); [|by eexists].
  match goal with |- context [save_cache_metadata ?w1] =>
    destruct (save_cache_metadata_frame w1) as (f' & Hf');
    destruct (save_cache_metadata w1) as [r w2] end.
  simpl in Hf'. subst w2. exists f'. by destruct r.
Qed.

Lemma purge_blocked_since_intro (cache : CacheTypes) (t : datetime) (w : World) :
  PyDict.get cache (last_cache_purge (self w)) = Some t ->
  purge_blocked_since cache t w.
Proof.
  intros Hget. split; [done|]. intros cooldown Hcd Hnow.
  by rewrite (purge_cache_blocked cache w t cooldown).
Qed.

Lemma get_all_images_purge_record (w : World) (images : list ImageObj) :
  refresh_due (last_all_images_cache (self w)) IMAGES w ->
  let w0 := after_check (last_all_images_cache (self w)) w in
  PyDict.get IMAGES (last_cache_purge (self (get_all_images (Ok images) w).2))
  = Some (clock w (S (ticks w0))).
Proof.
  intros Hdue w0.
  pose proof (needs_refresh_due _ _ _ Hdue) as Hcheck. fold w0 in Hcheck.
  assert (w0 = w \/ w0 = tick w) as Hw0 by apply after_check_cases.
  clearbody w0.
  assert (clock w (S (ticks w0)) = clock (tick w0) (ticks (tick w0))) as ->
    by (by destruct Hw0 as [-> | ->]).
  unfold get_all_images, bind, get_self, lift, now.
  rewrite Hcheck. cbv beta iota.
  rewrite purge_images_run. cbv beta iota.
  match goal with |- context [store_images ?t ?l ?w1] =>
    destruct (store_images_frame t l w1) as (table & Htable);
    destruct (store_images t l w1) as [r w2] end.
  simpl in Htable. subst w2.
  destruct r as [[]|e]; [|cbn; apply get_update_eq].
  cbn [self map_self cached_images set_cached_images].
  destruct (PyDict.values table) as [|v vs]; [cbn; apply get_update_eq|].
  unfold ret, modify_self. cbv beta iota.
  match goal with |- context [save_cache IMAGES ?w1] =>
    destruct (save_cache_frame IMAGES w1) as (f' & Hf'); [done|];
    destruct (save_cache IMAGES w1) as [r w2] end.
  simpl in Hf'. subst w2.
  destruct r as [[]|e]; cbn; apply get_update_eq.
Qed.

Lemma get_full_episodic_purge_records (w : World) (chapters_list : list ChapterObj) :
  refresh_due (last_full_episodic_cache (self w)) CHAPTERS w ->
  let w0 := after_check (last_full_episodic_cache (self w)) w in
  let w' := (get_full_episodic (Ok chapters_list) w).2 in
  PyDict.get CHAPTERS (last_cache_purge (self w')) = Some (clock w (S (ticks w0)))
  /\ PyDict.get RECORDS (last_cache_purge (self w')) = Some (clock w (S (S (ticks w0)))).
Proof.
  intros Hdue w0.
  pose proof (needs_refresh_due _ _ _ Hdue) as Hcheck. fold w0 in Hcheck.
  assert (w0 = w \/ w0 = tick w) as Hw0 by apply after_check_cases.
  clearbody w0.
  assert (clock w (S (ticks w0)) = clock (tick w0) (ticks (tick w0))) as ->
    by (by destruct Hw0 as [-> | ->]).
  assert (clock w (S (S (ticks w0))) = clock (tick w0) (S (ticks (tick w0)))) as ->
    by (by destruct Hw0 as [-> | ->]).
  assert (forall (t1 t2 : datetime) (d : list (CacheTypes * datetime)),
            PyDict.get CHAPTERS (PyDict.update RECORDS t2 (PyDict.update CHAPTERS t1 d))
            = Some t1
            /\ PyDict.get RECORDS (PyDict.update RECORDS t2 (PyDict.update CHAPTERS t1 d))
               = Some t2) as Hget.
  { intros. split; [|apply get_update_eq].
    rewrite get_update_ne by done. apply get_update_eq. }
  unfold get_full_episodic, bind, get_self, lift, now.
  rewrite Hcheck. cbv beta iota.
  rewrite purge_chapters_run. cbv beta iota.
  rewrite purge_records_run. cbv beta iota.
  destruct (dict_comprehension _ chapters_list []) as [chapters|e];
    [|cbn; apply Hget].
  unfold modify_self. cbv beta iota.
  match goal with |- context [save_cache CHAPTERS ?w1] =>
    destruct (save_cache_frame CHAPTERS w1) as (f1 & Hf1); [done|];
    destruct (save_cache CHAPTERS w1) as [r1 w2] end.
  simpl in Hf1. subst w2.
  destruct r1 as [[]|e]; [|cbn; apply Hget].
  match goal with |- context [save_cache RECORDS ?w1] =>
    destruct (save_cache_frame RECORDS w1) as (f2 & Hf2); [done|];
    destruct (save_cache RECORDS w1) as [r2 w2] end.
  simpl in Hf2. subst w2.
  destruct r2 as [[]|e]; cbn; apply Hget.
Qed.

(** C10.  The forced purge inside a refreshing all-images fetch records a
    purge time for the images cache, and the one inside a refreshing
    full-episodic fetch records one for the chapters and for the records
    cache, whatever the fetch does afterwards; right after the fetch an
    unforced purge of such a cache within its cooldown raises
    [CachePurgeError], although no caller purged it. *)
Theorem fetch_starts_purge_cooldown (w : World) :
  (forall images,
     refresh_due (last_all_images_cache (self w)) IMAGES w ->
     let w0 := after_check (last_all_images_cache (self w)) w in
     purge_blocked_since IMAGES (clock w (S (ticks w0)))
       (get_all_images (Ok images) w).2)
  /\ (forall chapters_list,
        refresh_due (last_full_episodic_cache (self w)) CHAPTERS w ->
        let w0 := after_check (last_full_episodic_cache (self w)) w in
        let w' := (get_full_episodic (Ok chapters_list) w).2 in
        purge_blocked_since CHAPTERS (clock w (S (ticks w0))) w'
        /\ purge_blocked_since RECORDS (clock w (S (S (ticks w0)))) w').
Proof.
  split.
  - intros images Hdue w0. apply purge_blocked_since_intro.
    by apply get_all_images_purge_record.
  - intros chapters_list Hdue w0 w'.
    destruct (get_full_episodic_purge_records w chapters_list Hdue) as [Hc Hr].
    split; by apply purge_blocked_since_intro.
Qed.

(** ** Strings *)

Lemma string_app_cons (c : ascii) (x y : string) :
  String c x +:+ y = String c (x +:+ y).
Proof. reflexivity. Qed.

Lemma string_app_assoc (x y z : string) : (x +:+ y) +:+ z = x +:+ (y +:+ z).
Proof.
  induction x as [|c x IH]; [done|]. by rewrite !string_app_cons, IH.
Qed.

Lemma string_length_app (x y : string) :
  String.length (x +:+ y) = (String.length x + String.length y)%nat.
Proof.
  induction x as [|c x IH]; [done|]. rewrite string_app_cons. simpl. by rewrite IH.
Qed.


(** ** The cache directory *)

Lemma text_files_backup (p q : string) (f : FS) :
  p <> q -> p +:+ CACHE_BAK <> q ->
  text_files (backup p f) !! q = text_files f !! q.
Proof.
  intros Hp Hbak. unfold backup, path_replace.
  destruct (path_exists p f); [|done].
  destruct (text_files f !! p); simpl.
  - rewrite lookup_insert_ne by done. by rewrite lookup_delete_ne.
  - destruct (binary_files f !! p); simpl; [|done]. by rewrite lookup_delete_ne.
Qed.





Lemma text_files_write_json_ne (p q : string) (d : Document) (f : FS) :
  p <> q -> text_files (write_json p d f) !! q = text_files f !! q.
Proof. intros Hp. simpl. by rewrite lookup_insert_ne. Qed.

Lemma text_files_write_json (p : string) (d : Document) (f : FS) :
  text_files (write_json p d f) !! p = Some (Wellformed d).
Proof. simpl. by rewrite lookup_insert_eq. Qed.







(** ** Loading *)


(** Any other exception leaves [__load_cache], and with it the loop over the
    caches and [__init__]. *)
Lemma load_cache_uncaught (cache : CacheTypes) (w w1 : World) (e : exn)
    (rest : list CacheTypes) :
  load_cache_body cache w = (Raise e, w1) ->
  is_ValueError e = false ->
  load_cache cache w = (Raise e, w1)
  /\ load_caches (cache :: rest) w = (Raise e, w1).
Proof.
  intros Hbody He.
  assert (load_cache cache w = (Raise e, w1)) as Hload.
  { unfold load_cache, try_except_ValueError. by rewrite Hbody, He. }
  split; [done|]. simpl. unfold bind. by rewrite Hload.
Qed.














(** Malformed JSON is such a failure for every cache whose file exists. *)
Lemma load_cache_malformed (cache : CacheTypes) (w : World) :
  text_files (fs w) !! cache_file_path cache = Some Malformed ->
  (cache = IMAGE_CONTENTS -> cache_dir_path cache ∈ dirs (fs w)) ->
  load_cache_body cache w = (Raise JSONDecodeError, w).
Proof.
  intros Hfile Hdir.
  assert (path_exists (cache_file_path cache) (fs w) = true) as Hex.
  { unfold path_exists. rewrite Hfile.
    rewrite (bool_decide_eq_true_2 (is_Some (Some Malformed))) by (by eexists).
    by rewrite orb_true_r. }
  unfold load_cache_body.
  destruct (decide (cache = IMAGE_CONTENTS)) as [->|Hc].
  - unfold bind, get_fs, lift.
    assert (path_exists (cache_dir_path IMAGE_CONTENTS) (fs w) = true) as ->.
    { unfold path_exists. by rewrite bool_decide_eq_true_2 by (by apply Hdir). }
    change (cache_dir_path IMAGE_CONTENTS +:+ CACHE_EXT)
      with (cache_file_path IMAGE_CONTENTS).
    rewrite Hex. simpl. unfold json_load. by rewrite Hfile.
  - unfold bind, get_fs, lift. rewrite Hex. simpl. unfold json_load. by rewrite Hfile.
Qed.

(** ** Saving and loading again *)

(** *** Timestamps

    [timestamp] rounds a count of microseconds to the nearest float of
    seconds; [fromtimestamp] splits the float and rounds its fraction to
    microseconds.  The lemmas bound the error of the two roundings. *)




















Lemma load_cache_body_json (cache : CacheTypes) (doc : Document) (w : World) :
  cache <> IMAGE_CONTENTS ->
  text_files (fs w) !! cache_file_path cache = Some (Wellformed doc) ->
  load_cache_body cache w = load_document cache doc w.
Proof.
  intros Hc Hfile. unfold load_cache_body. rewrite decide_False by done.
  unfold bind, get_fs, lift.
  assert (path_exists (cache_file_path cache) (fs w) = true) as ->.
  { unfold path_exists. rewrite Hfile.
    rewrite (bool_decide_eq_true_2 (is_Some (Some (Wellformed doc)))) by (by eexists).
    by rewrite orb_true_r. }
  simpl. unfold json_load. by rewrite Hfile.
Qed.

Lemma load_cache_ok (cache : CacheTypes) (w w' : World) :
  load_cache_body cache w = (Ok tt, w') -> load_cache cache w = (Ok tt, w').
Proof. intros Hbody. unfold load_cache, try_except_ValueError. by rewrite Hbody. Qed.
















(** *** The image files *)



















End Properties.

(** * Further properties of the cache *)

Section MoreProperties.
Context {ftd : Dataclasses} {fields : DataclassFields ftd}.

(** ** Purging *)

(** X1.  The cache metadata cannot be purged: a forced purge, or an unforced
    one when no purge of the metadata is recorded, raises [CachePurgeError]
    with the reason "Not a valid cache type", reads no clock and changes
    nothing, so no purge time is recorded for it. *)
Theorem purge_cache_metadata_rejected (w : World) (force_purge : bool) :
  force_purge = true \/ PyDict.get CACHE_METADATA (last_cache_purge (self w)) = None ->
  purge_cache CACHE_METADATA force_purge w
  = (Raise (CachePurgeError INVALID_CACHE None), w).
Proof.
  intros Hcheck.
  unfold purge_cache, check_purge_cooldown, bind, get_self. simpl.
  destruct Hcheck as [-> | ->]; [done|]. by destruct force_purge.
Qed.

(** X2.  At the moment the cooldown ends the unforced purge is allowed
    again: when the clock reading of the test is not before
    [last + cooldown], the purge succeeds, empties the table (the full
    record contents apart), and records the clock reading taken after the
    test. *)
Theorem purge_cache_allowed_after_cooldown (cache : CacheTypes) (w : World)
    (last : datetime) (cooldown : timedelta) :
  PyDict.get cache (last_cache_purge (self w)) = Some last ->
  CACHE_PURGE_COOLDOWN cache = Some cooldown ->
  last + cooldown <= clock w (ticks w) ->
  exists w', purge_cache cache false w = (Ok tt, w')
    /\ (cache <> FULL_RECORD_CONTENTS -> table_empty cache (self w'))
    /\ PyDict.get cache (last_cache_purge (self w')) = Some (clock w (S (ticks w)))
    /\ ticks w' = S (S (ticks w))
    /\ fs w' = fs w.
Proof.
  intros Hlast Hcd Hnow.
  assert ((clock w (ticks w) <? last + cooldown) = false) as Hlt by (apply Z.ltb_ge; lia).
  destruct cache; try discriminate;
    unfold purge_cache, check_purge_cooldown, bind, get_self, now, getitem; simpl;
    rewrite Hlast; simpl; simpl in Hcd; injection Hcd as <-; rewrite Hlt; simpl;
    (eexists; split; [reflexivity|]); simpl;
    (split; [done|]); (split; [apply get_update_eq|done]).
Qed.

(** X3.  Whatever its outcome, a purge of one cache leaves the table of
    every other cache, the cache directory and the output as they were. *)
Theorem purge_cache_frame (cache other : CacheTypes) (force_purge : bool) (w : World) :
  other <> cache -> other <> CACHE_METADATA ->
  let w' := (purge_cache cache force_purge w).2 in
  same_table other (self w') (self w) /\ fs w' = fs w /\ stdout w' = stdout w.
Proof.
  intros Hother Hmeta.
  unfold purge_cache, check_purge_cooldown, bind, get_self, now, getitem.
  cbn zeta.
  destruct force_purge; simpl.
  - destruct cache, other; try congruence; simpl; done.
  - destruct (PyDict.get cache (last_cache_purge (self w))) as [last|]; simpl.
    + destruct (CACHE_PURGE_COOLDOWN cache) as [cooldown|] eqn:Hcd; simpl.
      * destruct (clock w (ticks w) <? last + cooldown); simpl.
        -- destruct other; done.
        -- destruct cache, other; try congruence; simpl; done.
      * destruct other; done.
    + destruct cache, other; try congruence; simpl; done.
Qed.

(** ** Introspection *)



Lemma purge_times_world (l : list (CacheTypes * datetime))
    (acc : list (CacheTypes * (datetime * datetime))) (w : World) :
  (purge_times l acc w).2 = w.
Proof.
  revert acc. induction l as [|[c t] l IH]; intros acc; [done|].
  simpl. unfold bind, getitem. destruct (CACHE_PURGE_COOLDOWN c); [apply IH|done].
Qed.

(** X6.  [get_cached_items] only reads: for every cache and flag, whether
    it returns or raises, the attributes, the cache directory and the output
    are as before, and the clock has been read once.  The full record
    contents, although cached, purged and saved like the other caches,
    cannot be introspected: the call raises [CacheFetchError]. *)
Theorem get_cached_items_read_only (cache : CacheTypes) (ignore_stale : bool) (w : World) :
  (get_cached_items cache ignore_stale w).2 = tick w
  /\ (get_cached_items FULL_RECORD_CONTENTS ignore_stale w).1 = Raise CacheFetchError.
Proof.
  split; [|done].
  unfold get_cached_items, bind, now, get_self, getitem, lift, ret.
  destruct cache; cbn [CACHE_DURATION]; try done;
    try (by match goal with |- context [annotate_dict ?a ?b ?c ?d] =>
              destruct (annotate_dict a b c d) end).
  unfold annotate_marker, annotate_purges, bind, getitem, ret, raise. simpl.
  destruct (last_all_images_cache (self w)); try done.
  destruct (last_full_episodic_cache (self w)); try done.
  destruct (last_cache_purge_undecoded (self w)); try done.
  pose proof (purge_times_world (last_cache_purge (self w)) [] (tick w)) as Hw.
  destruct (purge_times _ _ _) as [[purges|e] w']; simpl in Hw; by subst.
Qed.



(** ** Saving *)

Lemma text_files_backup_bak (p : string) (x : TextFile) (f : FS) :
  text_files f !! p = Some x ->
  text_files (backup p f) !! (p +:+ CACHE_BAK) = Some x.
Proof.
  intros Hfile. unfold backup, path_exists, path_replace. rewrite Hfile.
  rewrite (bool_decide_eq_true_2 (is_Some (Some x))) by (by eexists).
  rewrite orb_true_r. simpl. by rewrite lookup_insert_eq.
Qed.

(** X8.  Saving a cache kept as one JSON document over an existing
    snapshot keeps the old snapshot as [<path>.bak], writes the new document
    at the path and rewrites the metadata file; the object is not changed. *)
Theorem save_cache_keeps_backup (cache : CacheTypes) (doc : Document) (old : TextFile)
    (w : World) :
  cache <> IMAGE_CONTENTS -> cache <> CACHE_METADATA ->
  metadata_decoded (self w) ->
  (cache_document cache (self w) w).1 = Ok doc ->
  text_files (fs w) !! cache_file_path cache = Some old ->
  exists w',
    save_cache cache w = (Ok tt, w')
    /\ self w' = self w
    /\ text_files (fs w') !! cache_file_path cache = Some (Wellformed doc)
    /\ text_files (fs w') !! (cache_file_path cache +:+ CACHE_BAK) = Some old
    /\ text_files (fs w') !! cache_file_path CACHE_METADATA
       = Some (Wellformed (metadata_document (self w))).
Proof.
  intros Hi Hm Hdec Hdoc Hold. eexists. split; [by apply save_cache_run|].
  cbn [fs self map_fs]. unfold document_written, metadata_written.
  split; [done|]. split; [|split].
  - rewrite text_files_write_json_ne by (destruct cache; done).
    rewrite text_files_backup by (destruct cache; done).
    apply text_files_write_json.
  - rewrite text_files_write_json_ne by (destruct cache; done).
    rewrite text_files_backup by (destruct cache; done).
    cbn [mkdir text_files].
    rewrite text_files_write_json_ne by (destruct cache; done).
    by apply text_files_backup_bak.
  - apply text_files_write_json.
Qed.

(** ** Loading *)

Lemma load_cache_absent (cache : CacheTypes) (w : World) :
  path_exists (cache_file_path cache) (fs w) = false
  \/ (cache = IMAGE_CONTENTS /\ path_exists (cache_dir_path cache) (fs w) = false) ->
  load_cache cache w = (Ok tt, w).
Proof.
  intros Habsent. apply load_cache_ok. unfold load_cache_body.
  destruct (decide (cache = IMAGE_CONTENTS)) as [->|Hc].
  - unfold bind, get_fs.
    destruct (path_exists (cache_dir_path IMAGE_CONTENTS) (fs w)) eqn:Hdir; [|done].
    destruct Habsent as [Hfile | [_ ?]]; [|done].
    change (cache_dir_path IMAGE_CONTENTS +:+ CACHE_EXT)
      with (cache_file_path IMAGE_CONTENTS).
    by rewrite Hfile.
  - destruct Habsent as [Hfile | [? _]]; [|done].
    unfold bind, get_fs. by rewrite Hfile.
Qed.

(** X9.  Loading a cache that has no snapshot file (or, for the image
    contents, no image directory) returns at once: nothing is read, printed
    or changed. *)
Theorem load_cache_missing_snapshot (cache : CacheTypes) (w : World) :
  path_exists (cache_file_path cache) (fs w) = false
  \/ (cache = IMAGE_CONTENTS /\ path_exists (cache_dir_path cache) (fs w) = false) ->
  load_cache cache w = (Ok tt, w).
Proof. apply load_cache_absent. Qed.

(** X10.  Over a cache directory without any snapshot file, creating the
    object succeeds and leaves every table empty, both markers unset and no
    purge recorded; it prints nothing and touches no file. *)
Theorem init_without_snapshots (w : World) :
  (forall cache, path_exists (cache_file_path cache) (fs w) = false) ->
  init w = (Ok tt, map_self (fun _ => init_attributes) w).
Proof.
  intros Habsent. unfold init, load_all_cache, CacheTypes_all, bind, modify_self.
  set (w0 := map_self (fun _ => init_attributes) w).
  assert (forall cache, load_cache cache w0 = (Ok tt, w0)) as Hload.
  { intros cache. apply load_cache_absent. left. apply Habsent. }
  cbn [load_caches]. unfold bind. by rewrite !Hload.
Qed.

(** X11.  The handler of [__load_cache] catches [ValueError] only.  A news
    snapshot whose timestamp [fromtimestamp] rejects with another exception
    (a [TypeError] for a JSON string, null, array or object; an
    [OverflowError] beyond the range of [time_t]) makes the creation of the
    object fail with that exception, before any other snapshot is read. *)
Theorem init_aborts_on_uncaught_timestamp (w : World) (items : list json)
    (news_items : list ftd_NewsEntry) (x : json) (e : exn) :
  text_files (fs w) !! cache_file_path NEWS_ITEMS = Some (Wellformed (DocNews items x)) ->
  list_comprehension NewsEntry_from_obj items = Ok news_items ->
  fromtimestamp x = Raise e ->
  is_ValueError e = false ->
  init w = (Raise e, map_self (fun _ => init_attributes) w).
Proof.
  intros Hfile Hitems Hx He.
  unfold init, load_all_cache. unfold bind at 1, modify_self.
  set (w0 := map_self (fun _ => init_attributes) w).
  assert (load_cache_body NEWS_ITEMS w0 = (Raise e, w0)) as Hbody.
  { rewrite (load_cache_body_json NEWS_ITEMS (DocNews items x)) by done.
    simpl. unfold bind, lift. by rewrite Hitems, Hx. }
  destruct (load_cache_uncaught NEWS_ITEMS w0 w0 e
              (List.tl CacheTypes_all) Hbody He) as [_ Hall].
  exact Hall.
Qed.

(** X12.  An entry of the image-contents index whose image file or
    thumbnail file is missing is skipped without an error: when that holds
    for every entry (and the timestamps are good) the load changes nothing. *)
Theorem load_image_contents_skips_missing_files (index : list (string * json))
    (w : World) :
  cache_dir_path IMAGE_CONTENTS ∈ dirs (fs w) ->
  text_files (fs w) !! cache_file_path IMAGE_CONTENTS
    = Some (Wellformed (DocImageContents index)) ->
  Forall (fun ix =>
            (exists t, fromtimestamp ix.2 = Ok t)
            /\ (path_exists (image_file_path (cache_dir_path IMAGE_CONTENTS) ix.1) (fs w)
                && path_exists (thumb_file_path (cache_dir_path IMAGE_CONTENTS) ix.1) (fs w))
               = false) index ->
  load_cache IMAGE_CONTENTS w = (Ok tt, w).
Proof.
  intros Hdir Hfile Hall. apply load_cache_ok. unfold load_cache_body.
  rewrite decide_True by done. unfold bind at 1, get_fs at 1.
  assert (path_exists (cache_dir_path IMAGE_CONTENTS) (fs w) = true) as ->.
  { unfold path_exists. by rewrite bool_decide_eq_true_2 by done. }
  change (cache_dir_path IMAGE_CONTENTS +:+ CACHE_EXT)
    with (cache_file_path IMAGE_CONTENTS).
  assert (path_exists (cache_file_path IMAGE_CONTENTS) (fs w) = true) as ->.
  { unfold path_exists. rewrite Hfile.
    rewrite (bool_decide_eq_true_2 (is_Some (Some _))) by (by eexists).
    by rewrite orb_true_r. }
  cbn [negb]. unfold bind, lift, json_load. rewrite Hfile. clear Hfile.
  induction Hall as [|[i x] index [[t Ht] Hmissing] Hall IH]; [done|].
  cbn [load_images fst snd] in *. unfold bind, lift, get_fs.
  rewrite Ht, Hmissing. cbn [negb]. apply IH.
Qed.

(** ** Fetching *)

Lemma is_stale_fresh (last : datetime) (duration : timedelta) (cache : CacheTypes)
    (w : World) :
  CACHE_DURATION cache = Some duration ->
  clock w (ticks w) <= last + duration ->
  is_stale (Some last) cache w = (Ok false, tick w).
Proof.
  intros Hd Hfresh. unfold is_stale, bind, now, getitem, ret. rewrite Hd.
  by apply Z.ltb_ge in Hfresh as ->.
Qed.

Lemma is_stale_due (last : datetime) (duration : timedelta) (cache : CacheTypes)
    (w : World) :
  CACHE_DURATION cache = Some duration ->
  last + duration < clock w (ticks w) ->
  is_stale (Some last) cache w = (Ok true, tick w).
Proof.
  intros Hd Hdue. unfold is_stale, bind, now, getitem, ret. rewrite Hd.
  by apply Z.ltb_lt in Hdue as ->.
Qed.

Lemma get_single_image_hit (w : World) (response : PyResult ImageObj)
    (image : option string) (v : ftd_Image) (t : datetime) :
  PyDict.get image (cached_images (self w)) = Some (v, t) ->
  clock w (ticks w) <= t + timedelta_hours 12 ->
  get_single_image response image w = (Ok v, tick w).
Proof.
  intros Hc Hfresh.
  unfold get_single_image. unfold bind at 1, get_self at 1. rewrite Hc.
  unfold bind at 1. cbn [fmap option_fmap option_map snd].
  rewrite (is_stale_fresh t (timedelta_hours 12)) by done.
  unfold bind, ret, get_self, getitem. cbn [self tick]. by rewrite Hc.
Qed.

Lemma get_single_record_hit (w : World) (response : PyResult json) (name : string)
    (v : ftd_Record) (t : datetime) :
  PyDict.get name (cached_records (self w)) = Some (v, t) ->
  clock w (ticks w) <= t + timedelta_hours 12 ->
  get_single_record response name w = (Ok v, tick w).
Proof.
  intros Hc Hfresh.
  unfold get_single_record. unfold bind at 1, get_self at 1. rewrite Hc.
  unfold bind at 1. cbn [fmap option_fmap option_map snd].
  rewrite (is_stale_fresh t (timedelta_hours 12)) by done.
  unfold bind, ret, get_self, getitem. cbn [self tick]. by rewrite Hc.
Qed.




(** X15.  A request that fails changes nothing: whichever fetch it is and
    whatever the state, after the call with a failing request the
    attributes, the cache directory and the output are as before.  In
    particular the all-images and full-episodic fetches purge nothing
    before they have their response. *)
Theorem failed_request_changes_nothing (e : exn) (w : World) :
  only_clock_read w (get_all_news (Raise e) w).2
  /\ (forall image, only_clock_read w (get_single_image (Raise e) image w).2)
  /\ (forall name, only_clock_read w (get_single_record (Raise e) name w).2)
  /\ (forall image_response image,
        only_clock_read w (get_image_description (Raise e) image_response image w).2)
  /\ only_clock_read w (get_all_images (Raise e) w).2
  /\ only_clock_read w (get_full_episodic (Raise e) w).2.
Proof.
  assert (forall w', w' = w \/ w' = tick w -> only_clock_read w w') as Hclock
    by (by intros w' [-> | ->]).
  split; [|split; [|split; [|split; [|split]]]]; intros; apply Hclock.
  - unfold get_all_news, bind, get_self, is_stale, now, getitem, lift, ret.
    destruct (cached_news_items (self w)) as [[items t]|] eqn:Hc; simpl; [|by left].
    destruct (t + timedelta_hours 12 <? clock w (ticks w)); simpl; [by right|].
    rewrite Hc. by right.
  - unfold get_single_image, bind, get_self, is_stale, now, getitem, lift, ret.
    destruct (PyDict.get image (cached_images (self w))) as [[v t]|] eqn:Hc; simpl;
      [|by left].
    destruct (t + timedelta_hours 12 <? clock w (ticks w)); simpl; [by right|].
    rewrite Hc. by right.
  - unfold get_single_record, bind, get_self, is_stale, now, getitem, lift, ret.
    destruct (PyDict.get name (cached_records (self w))) as [[v t]|] eqn:Hc; simpl;
      [|by left].
    destruct (t + timedelta_hours 12 <? clock w (ticks w)); simpl; [by right|].
    rewrite Hc. by right.
  - unfold get_image_description, bind, get_self, is_stale, now, getitem, lift, ret.
    destruct (PyDict.get image (cached_image_descriptions (self w))) as [[v t]|] eqn:Hc;
      simpl; [|by left].
    destruct (t + timedelta_hours 72 <? clock w (ticks w)); simpl; [by right|].
    rewrite Hc. by right.
  - unfold get_all_images, bind, get_self, needs_refresh, bind, now, getitem, lift, ret.
    destruct (last_all_images_cache (self w)) as [|last|j]; simpl;
      [by left| |by right].
    destruct (last + timedelta_hours 12 <? clock w (ticks w)); by right.
  - unfold get_full_episodic, bind, get_self, needs_refresh, bind, now, getitem, lift,
      ret.
    destruct (last_full_episodic_cache (self w)) as [|last|j]; simpl;
      [by left| |by right].
    destruct (last + timedelta_hours 12 <? clock w (ticks w)); simpl; [by right|].
    destruct (cached_chapters (self w)); by right.
Qed.

Lemma refresh_check (x : marker) (w : World) :
  self (after_check x w) = self w /\ fs (after_check x w) = fs w
  /\ stdout (after_check x w) = stdout w /\ clock (after_check x w) = clock w.
Proof. by destruct x. Qed.

(** X16.  An all-images fetch on the refresh path that is answered with an
    empty list fails with [RuntimeError] (the [StopIteration] of [next] on
    the empty table, inside a coroutine) after it has purged the images: the
    table is empty, the marker unset and the purge recorded, and nothing is
    saved. *)
Theorem get_all_images_empty_response (w : World) :
  refresh_due (last_all_images_cache (self w)) IMAGES w ->
  let w0 := after_check (last_all_images_cache (self w)) w in
  exists w',
    get_all_images (Ok []) w = (Raise RuntimeError, w')
    /\ cached_images (self w') = []
    /\ last_all_images_cache (self w') = Unset
    /\ PyDict.get IMAGES (last_cache_purge (self w')) = Some (clock w (S (ticks w0)))
    /\ fs w' = fs w.
Proof.
  intros Hdue w0.
  pose proof (needs_refresh_due _ _ _ Hdue) as Hcheck. fold w0 in Hcheck.
  destruct (refresh_check (last_all_images_cache (self w)) w) as (Hself & Hfs & _ & Hclk).
  fold w0 in Hself, Hfs, Hclk. clearbody w0.
  unfold get_all_images, bind, get_self, lift, now.
  rewrite Hcheck. cbv beta iota.
  rewrite purge_images_run. cbv beta iota.
  cbn [store_images ret self map_self tick cached_images set_cached_images
       set_last_cache_purge set_last_all_images_cache PyDict.values fmap list_fmap].
  unfold raise. eexists. split; [reflexivity|].
  cbn [self map_self tick cached_images set_cached_images set_last_cache_purge
       set_last_all_images_cache last_all_images_cache last_cache_purge fs clock ticks].
  rewrite get_update_eq, Hclk. done.
Qed.

Lemma is_stale_entry_due (cached_at : option datetime) (cache : CacheTypes) (w : World) :
  entry_due cached_at cache w ->
  is_stale cached_at cache w = (Ok true, after_test cached_at w).
Proof.
  destruct cached_at as [last|]; [|done].
  intros (duration & Hd & Hdue). by apply (is_stale_due last duration).
Qed.

Lemma after_test_world (cached_at : option datetime) (w : World) :
  self (after_test cached_at w) = self w /\ fs (after_test cached_at w) = fs w
  /\ stdout (after_test cached_at w) = stdout w
  /\ clock (after_test cached_at w) = clock w.
Proof. by destruct cached_at. Qed.

Lemma save_cache_snapshot (cache : CacheTypes) (doc : Document) (w : World) :
  cache <> IMAGE_CONTENTS -> cache <> CACHE_METADATA ->
  metadata_decoded (self w) ->
  (cache_document cache (self w) w).1 = Ok doc ->
  exists w',
    save_cache cache w = (Ok tt, w')
    /\ self w' = self w
    /\ text_files (fs w') !! cache_file_path cache = Some (Wellformed doc)
    /\ text_files (fs w') !! cache_file_path CACHE_METADATA
       = Some (Wellformed (metadata_document (self w))).
Proof.
  intros Hi Hm Hdec Hdoc. eexists. split; [by apply save_cache_run|].
  cbn [fs self map_fs]. unfold document_written, metadata_written.
  split; [done|]. split.
  - rewrite text_files_write_json_ne by (destruct cache; done).
    rewrite text_files_backup by (destruct cache; done).
    apply text_files_write_json.
  - apply text_files_write_json.
Qed.

Lemma get_single_record_miss (w : World) (name : string) (record : json)
    (v : ftd_Record) :
  let cached_at := snd <$> PyDict.get name (cached_records (self w)) in
  entry_due cached_at RECORDS w ->
  Record_from_obj record = Ok v ->
  metadata_decoded (self w) ->
  let t := clock w (ticks (after_test cached_at w)) in
  let table := PyDict.update name (v, t) (cached_records (self w)) in
  exists w',
    get_single_record (Ok record) name w = (Ok v, w')
    /\ self w' = set_cached_records table (self w)
    /\ text_files (fs w') !! cache_file_path RECORDS
       = Some (Wellformed (DocRecords (PyDict.of_list
                (map (fun ij => (ij.1, (Record_asdict ij.2.1, timestamp ij.2.2))) table))))
    /\ text_files (fs w') !! cache_file_path CACHE_METADATA
       = Some (Wellformed (metadata_document (self w))).
Proof.
  intros cached_at Hdue Hv Hdec t table.
  destruct (after_test_world cached_at w) as (Hself & _ & _ & Hclk).
  unfold get_single_record. unfold bind at 1, get_self at 1.
  fold cached_at. unfold bind at 1. rewrite (is_stale_entry_due _ _ _ Hdue).
  set (w0 := after_test cached_at w) in *. clearbody w0.
  unfold bind at 2, lift at 1. unfold bind at 2, lift at 1. rewrite Hv.
  unfold bind at 2, now at 1. unfold bind at 2, modify_self at 1.
  unfold bind at 1. cbv beta. rewrite Hclk. fold t.
  set (w1 := map_self _ (tick w0)).
  assert (self w1 = set_cached_records table (self w)) as Hself1
    by (unfold w1; cbn [self map_self tick]; by rewrite Hself).
  destruct (save_cache_snapshot RECORDS
              (DocRecords (PyDict.of_list
                 (map (fun ij => (ij.1, (Record_asdict ij.2.1, timestamp ij.2.2))) table)))
              w1)
    as (w' & Hsave & Hself' & Hfile & Hmeta); [done|done| | |].
  { rewrite Hself1. exact Hdec. }
  { by rewrite Hself1. }
  exists w'. rewrite Hsave.
  unfold bind, get_self, getitem, ret. rewrite Hself', Hself1.
  cbn [cached_records set_cached_records]. unfold table at 1. rewrite get_update_eq.
  split; [done|]. split; [done|]. split; [done|].
  rewrite Hmeta. by rewrite Hself1.
Qed.

(** X17.  A record fetch whose entry is missing or older than 12 h asks the
    server, stores the converted record under the requested name with the
    clock reading taken after the conversion, keeps the other entries and
    attributes, and writes the snapshot of the records table and the
    metadata file; it returns the new record. *)
Theorem get_single_record_request (w : World) (name : string) (record : json)
    (v : ftd_Record) :
  let cached_at := snd <$> PyDict.get name (cached_records (self w)) in
  entry_due cached_at RECORDS w ->
  Record_from_obj record = Ok v ->
  metadata_decoded (self w) ->
  let t := clock w (ticks (after_test cached_at w)) in
  let table := PyDict.update name (v, t) (cached_records (self w)) in
  exists w',
    get_single_record (Ok record) name w = (Ok v, w')
    /\ self w' = set_cached_records table (self w)
    /\ text_files (fs w') !! cache_file_path RECORDS
       = Some (Wellformed (DocRecords (PyDict.of_list
                (map (fun ij => (ij.1, (Record_asdict ij.2.1, timestamp ij.2.2))) table))))
    /\ text_files (fs w') !! cache_file_path CACHE_METADATA
       = Some (Wellformed (metadata_document (self w))).
Proof. apply get_single_record_miss. Qed.

(** X18.  A news fetch with nothing cached, or with a list older than
    12 h, asks the server, converts every item, stores the list with the
    clock reading taken after the conversion, writes the news snapshot and
    the metadata file and returns the new list. *)
Theorem get_all_news_request (w : World) (items : list json)
    (news_items : list ftd_NewsEntry) :
  let cached_at := snd <$> cached_news_items (self w) in
  entry_due cached_at NEWS_ITEMS w ->
  list_comprehension NewsEntry_from_obj items = Ok news_items ->
  metadata_decoded (self w) ->
  let t := clock w (ticks (after_test cached_at w)) in
  exists w',
    get_all_news (Ok items) w = (Ok news_items, w')
    /\ self w' = set_cached_news_items (Some (news_items, t)) (self w)
    /\ text_files (fs w') !! cache_file_path NEWS_ITEMS
       = Some (Wellformed (DocNews (map NewsEntry_asdict news_items) (timestamp t)))
    /\ text_files (fs w') !! cache_file_path CACHE_METADATA
       = Some (Wellformed (metadata_document (self w))).
Proof.
  intros cached_at Hdue Hv Hdec t.
  destruct (after_test_world cached_at w) as (Hself & _ & _ & Hclk).
  unfold get_all_news. unfold bind at 1, get_self at 1.
  fold cached_at. unfold bind at 1. rewrite (is_stale_entry_due _ _ _ Hdue).
  set (w0 := after_test cached_at w) in *. clearbody w0.
  unfold bind at 2, lift at 1. unfold bind at 2, lift at 1. rewrite Hv.
  unfold bind at 2, now at 1. unfold bind at 2, modify_self at 1.
  unfold bind at 1. cbv beta. rewrite Hclk. fold t.
  set (w1 := map_self _ (tick w0)).
  assert (self w1 = set_cached_news_items (Some (news_items, t)) (self w)) as Hself1
    by (unfold w1; cbn [self map_self tick]; by rewrite Hself).
  destruct (save_cache_snapshot NEWS_ITEMS
              (DocNews (map NewsEntry_asdict news_items) (timestamp t)) w1)
    as (w' & Hsave & Hself' & Hfile & Hmeta); [done|done| | |].
  { rewrite Hself1. exact Hdec. }
  { by rewrite Hself1. }
  exists w'. rewrite Hsave.
  unfold bind, get_self, ret. rewrite Hself', Hself1.
  cbn [cached_news_items set_cached_news_items].
  split; [done|]. split; [done|]. split; [done|].
  rewrite Hmeta. by rewrite Hself1.
Qed.

(** X19.  An image fetch by name whose entry is missing or older than
    12 h asks the server, prefixes the two urls of the answer with
    ["https://fractalthorns.com"], stores the image converted from that
    object under the requested name, keeps the other entries and the "last
    all images" marker, and writes the images snapshot and the metadata
    file. *)
Theorem get_single_image_request (w : World) (name : string) (image_metadata : ImageObj)
    (v : ftd_Image) :
  let cached_at := snd <$> PyDict.get (Some name) (cached_images (self w)) in
  entry_due cached_at IMAGES w ->
  Image_from_obj
    (mkImageObj (io_name image_metadata)
       ("https://fractalthorns.com" +:+ io_image_url image_metadata)
       ("https://fractalthorns.com" +:+ io_thumb_url image_metadata)
       (io_fields image_metadata)) = Ok v ->
  metadata_decoded (self w) ->
  let t := clock w (ticks (after_test cached_at w)) in
  let table := PyDict.update (Some name) (v, t) (cached_images (self w)) in
  exists w',
    get_single_image (Ok image_metadata) (Some name) w = (Ok v, w')
    /\ self w' = set_cached_images table (self w)
    /\ text_files (fs w') !! cache_file_path IMAGES
       = Some (Wellformed (DocImages (PyDict.of_list
                (map (fun ij => (file_key ij.1, (Image_asdict ij.2.1, timestamp ij.2.2)))
                     table))))
    /\ text_files (fs w') !! cache_file_path CACHE_METADATA
       = Some (Wellformed (metadata_document (self w))).
Proof.
  intros cached_at Hdue Hv Hdec t table.
  destruct (after_test_world cached_at w) as (Hself & _ & _ & Hclk).
  unfold get_single_image. unfold bind at 1, get_self at 1.
  fold cached_at. unfold bind at 1. rewrite (is_stale_entry_due _ _ _ Hdue).
  set (w0 := after_test cached_at w) in *. clearbody w0.
  unfold bind at 2, lift at 1. unfold bind at 2, lift at 1.
  unfold resolve_urls, base_url. rewrite Hv.
  unfold bind at 2, now at 1. unfold bind at 2, modify_self at 1.
  unfold bind at 2, ret at 1.
  unfold bind at 1. cbv beta. rewrite Hclk. fold t.
  set (w1 := map_self _ (tick w0)).
  assert (self w1 = set_cached_images table (self w)) as Hself1
    by (unfold w1; cbn [self map_self tick]; by rewrite Hself).
  destruct (save_cache_snapshot IMAGES
              (DocImages (PyDict.of_list
                 (map (fun ij => (file_key ij.1, (Image_asdict ij.2.1, timestamp ij.2.2)))
                      table))) w1)
    as (w' & Hsave & Hself' & Hfile & Hmeta); [done|done| | |].
  { rewrite Hself1. exact Hdec. }
  { by rewrite Hself1. }
  exists w'. rewrite Hsave.
  unfold bind, get_self, getitem, ret. rewrite Hself', Hself1.
  cbn [cached_images set_cached_images]. unfold table at 1. rewrite get_update_eq.
  split; [done|]. split; [done|]. split; [done|].
  rewrite Hmeta. by rewrite Hself1.
Qed.

Lemma get_single_image_none_miss (w : World) (image_metadata : ImageObj) (v : ftd_Image) :
  let cached_at := snd <$> PyDict.get None (cached_images (self w)) in
  entry_due cached_at IMAGES w ->
  Image_from_obj (resolve_urls image_metadata) = Ok v ->
  metadata_decoded (self w) ->
  let w0 := after_test cached_at w in
  let t := clock w (ticks w0) in
  let t' := clock w (S (ticks w0)) in
  let table :=
    PyDict.update (Some (Image_name v)) (v, t')
      (PyDict.update None (v, t) (cached_images (self w))) in
  exists w',
    get_single_image (Ok image_metadata) None w = (Ok v, w')
    /\ self w' = set_cached_images table (self w)
    /\ PyDict.get None table = Some (v, t)
    /\ PyDict.get (Some (Image_name v)) table = Some (v, t')
    /\ text_files (fs w') !! cache_file_path IMAGES
       = Some (Wellformed (DocImages (PyDict.of_list
                (map (fun ij => (file_key ij.1, (Image_asdict ij.2.1, timestamp ij.2.2)))
                     table)))).
Proof.
  intros cached_at Hdue Hv Hdec w0 t t' table.
  destruct (after_test_world cached_at w) as (Hself & _ & _ & Hclk).
  assert (PyDict.get None table = Some (v, t)) as Hnone.
  { unfold table. rewrite get_update_ne by done. apply get_update_eq. }
  assert (PyDict.get (Some (Image_name v)) table = Some (v, t')) as Hname
    by apply get_update_eq.
  unfold get_single_image. unfold bind at 1, get_self at 1.
  fold cached_at. unfold bind at 1. rewrite (is_stale_entry_due _ _ _ Hdue).
  fold w0 in Hself, Hclk |- *. clearbody w0.
  unfold bind at 2, lift at 1. unfold bind at 2, lift at 1. rewrite Hv.
  unfold bind at 2, now at 1. unfold bind at 2, modify_self at 1.
  unfold bind at 2, bind at 2, get_self at 1.
  unfold bind at 1. cbv beta.
  cbn [self map_self tick cached_images set_cached_images clock ticks].
  unfold bind, lift, now, modify_self, get_self, getitem, ret.
  rewrite get_update_eq.
  cbn [self map_self tick cached_images set_cached_images clock ticks fst snd].
  rewrite Hclk. fold t t'.
  set (w1 := map_self _ _).
  assert (self w1 = set_cached_images table (self w)) as Hself1.
  { unfold w1. cbn [self map_self tick cached_images set_cached_images].
    by rewrite Hself. }
  destruct (save_cache_snapshot IMAGES
              (DocImages (PyDict.of_list
                 (map (fun ij => (file_key ij.1, (Image_asdict ij.2.1, timestamp ij.2.2)))
                      table))) w1)
    as (w' & Hsave & Hself' & Hfile & Hmeta); [done|done| | |].
  { rewrite Hself1. exact Hdec. }
  { by rewrite Hself1. }
  exists w'. rewrite Hsave.
  unfold bind, get_self, getitem, ret. rewrite Hself', Hself1.
  cbn [cached_images set_cached_images]. rewrite Hnone.
  done.
Qed.

(** X20.  A fetch of the default image ([image is None]) on the request
    path stores the answer twice: under the key [None], and under the name
    of the image with the next clock reading; both entries hold the same
    value, and the snapshot written holds both. *)
Theorem get_single_image_default (w : World) (image_metadata : ImageObj) (v : ftd_Image) :
  let cached_at := snd <$> PyDict.get None (cached_images (self w)) in
  entry_due cached_at IMAGES w ->
  Image_from_obj (resolve_urls image_metadata) = Ok v ->
  metadata_decoded (self w) ->
  let w0 := after_test cached_at w in
  let t := clock w (ticks w0) in
  let t' := clock w (S (ticks w0)) in
  let table :=
    PyDict.update (Some (Image_name v)) (v, t')
      (PyDict.update None (v, t) (cached_images (self w))) in
  exists w',
    get_single_image (Ok image_metadata) None w = (Ok v, w')
    /\ self w' = set_cached_images table (self w)
    /\ PyDict.get None table = Some (v, t)
    /\ PyDict.get (Some (Image_name v)) table = Some (v, t')
    /\ text_files (fs w') !! cache_file_path IMAGES
       = Some (Wellformed (DocImages (PyDict.of_list
                (map (fun ij => (file_key ij.1, (Image_asdict ij.2.1, timestamp ij.2.2)))
                     table)))).
Proof. apply get_single_image_none_miss. Qed.

(** X21.  An image-description fetch on the request path asks for the
    description, gets the image through [__get_single_image] (which may
    itself be served from the cache or make a request), replaces the
    ["title"] of the description by the title of that image, and stores
    the converted description under the requested name with the clock
    reading taken after the conversion; the snapshot of the descriptions is
    written. *)
Theorem get_image_description_request (w w1 : World) (image : string)
    (description : list (string * json)) (image_response : PyResult ImageObj)
    (image_info : ftd_Image) (v : ftd_ImageDescription) :
  let cached_at := snd <$> PyDict.get image (cached_image_descriptions (self w)) in
  entry_due cached_at IMAGE_DESCRIPTIONS w ->
  get_single_image image_response (Some image) (after_test cached_at w)
    = (Ok image_info, w1) ->
  ImageDescription_from_obj
    (JObject (PyDict.update "title" (Image_title image_info) description)) = Ok v ->
  metadata_decoded (self w1) ->
  let t := clock w1 (ticks w1) in
  let table := PyDict.update image (v, t) (cached_image_descriptions (self w1)) in
  exists w',
    get_image_description (Ok description) image_response image w = (Ok v, w')
    /\ self w' = set_cached_image_descriptions table (self w1)
    /\ text_files (fs w') !! cache_file_path IMAGE_DESCRIPTIONS
       = Some (Wellformed (DocImageDescriptions (PyDict.of_list
                (map (fun ij => (ij.1, (ImageDescription_asdict ij.2.1, timestamp ij.2.2)))
                     table)))).
Proof.
  intros cached_at Hdue Himage Hv Hdec t table.
  unfold get_image_description. unfold bind at 1, get_self at 1.
  fold cached_at. unfold bind at 1. rewrite (is_stale_entry_due _ _ _ Hdue).
  unfold bind, lift, now, modify_self. cbv beta iota.
  rewrite Himage. cbv beta iota. rewrite Hv. cbv beta iota. fold t.
  set (w2 := map_self _ (tick w1)).
  assert (self w2 = set_cached_image_descriptions table (self w1)) as Hself2 by done.
  destruct (save_cache_snapshot IMAGE_DESCRIPTIONS
              (DocImageDescriptions (PyDict.of_list
                 (map (fun ij => (ij.1, (ImageDescription_asdict ij.2.1, timestamp ij.2.2)))
                      table))) w2)
    as (w' & Hsave & Hself' & Hfile & Hmeta); [done|done| | |].
  { rewrite Hself2. exact Hdec. }
  { by rewrite Hself2. }
  exists w'. rewrite Hsave.
  unfold get_self, getitem, ret. rewrite Hself', Hself2.
  cbn [cached_image_descriptions set_cached_image_descriptions].
  unfold table at 1. rewrite get_update_eq.
  done.
Qed.

(** X22.  After a record fetch that asked the server, the next fetch of the
    same name is served from the cache as long as the clock reading of its
    test is not more than 12 h after the stored time: it returns the same
    record whatever the server would answer now, and changes nothing. *)
Theorem get_single_record_then_cached (w : World) (name : string) (record : json)
    (v : ftd_Record) (response : PyResult json) :
  let cached_at := snd <$> PyDict.get name (cached_records (self w)) in
  entry_due cached_at RECORDS w ->
  Record_from_obj record = Ok v ->
  metadata_decoded (self w) ->
  let w' := (get_single_record (Ok record) name w).2 in
  clock w' (ticks w') <= clock w (ticks (after_test cached_at w)) + timedelta_hours 12 ->
  get_single_record response name w' = (Ok v, tick w').
Proof.
  intros cached_at Hdue Hv Hdec w' Hfresh.
  destruct (get_single_record_miss w name record v Hdue Hv Hdec)
    as (w1 & Hrun & Hself & _).
  assert (w' = w1) as Hw' by (unfold w'; by rewrite Hrun).
  rewrite Hw' in *.
  apply (get_single_record_hit w1 response name v
           (clock w (ticks (after_test cached_at w)))); [|done].
  rewrite Hself. cbn [cached_records set_cached_records]. apply get_update_eq.
Qed.

(** X23.  After a fetch of the default image that asked the server, the
    image is also served from the cache under its own name: a fetch by that
    name, while its entry is not older than 12 h, returns the same image
    without a request. *)
Theorem get_single_image_default_then_named (w : World) (image_metadata : ImageObj)
    (v : ftd_Image) (response : PyResult ImageObj) :
  let cached_at := snd <$> PyDict.get None (cached_images (self w)) in
  entry_due cached_at IMAGES w ->
  Image_from_obj (resolve_urls image_metadata) = Ok v ->
  metadata_decoded (self w) ->
  let w' := (get_single_image (Ok image_metadata) None w).2 in
  clock w' (ticks w')
    <= clock w (S (ticks (after_test cached_at w))) + timedelta_hours 12 ->
  get_single_image response (Some (Image_name v)) w' = (Ok v, tick w').
Proof.
  intros cached_at Hdue Hv Hdec w' Hfresh.
  destruct (get_single_image_none_miss w image_metadata v Hdue Hv Hdec)
    as (w1 & Hrun & Hself & _ & Hname & _).
  assert (w' = w1) as Hw' by (unfold w'; by rewrite Hrun).
  rewrite Hw' in *.
  apply (get_single_image_hit w1 response (Some (Image_name v)) v
           (clock w (S (ticks (after_test cached_at w))))); [|done].
  rewrite Hself. cbn [cached_images set_cached_images]. exact Hname.
Qed.

End MoreProperties.

(** * Splitting a long message *)

Section Messages.

Lemma length_slice_to (n : nat) (s : string) :
  String.length (slice_to n s) = Nat.min n (String.length s).
Proof.
  revert s. induction n as [|n IH]; intros [|a s]; simpl; try done.
  by rewrite IH.
Qed.

Lemma length_slice_from (n : nat) (s : string) :
  String.length (slice_from n s) = (String.length s - n)%nat.
Proof.
  revert s. induction n as [|n IH]; intros [|a s]; simpl; try done.
Qed.

Lemma rfind_bound (c : ascii) (s : string) (end_ k : nat) :
  rfind c s end_ = Some k -> (k < end_ /\ k < String.length s)%nat.
Proof.
  revert s k. induction end_ as [|e IH]; intros [|a s] k; simpl; try done.
  destruct (rfind c s e) as [k'|] eqn:Hk.
  - intros [= <-]. destruct (IH _ _ Hk). lia.
  - case_decide; [|done]. intros [= <-]. lia.
Qed.

(** What stays in place after a cut fits in a message, and what is
    inserted is shorter than the item was. *)
Lemma split_item_lengths (m : string) :
  (0 < String.length m)%nat ->
  (String.length (split_item m).1 <= MAX_MESSAGE_LENGTH
   /\ String.length (split_item m).2 < String.length m)%nat.
Proof.
  intros Hlen. unfold split_item.
  destruct (rfind newline m MAX_MESSAGE_LENGTH) as [k|] eqn:Hn.
  - apply rfind_bound in Hn as [? ?]. cbn [fst snd].
    rewrite length_slice_to, length_slice_from. lia.
  - destruct (rfind " "%char m MAX_MESSAGE_LENGTH) as [k|] eqn:Hs.
    + apply rfind_bound in Hs as [? ?]. cbn [fst snd].
      rewrite length_slice_to, length_slice_from. lia.
    + cbn [fst snd].
      rewrite string_length_app, length_slice_to, length_slice_from.
      unfold MAX_MESSAGE_LENGTH. simpl String.length. lia.
Qed.

Lemma split_items_short_out (max_loop : nat) (seen rest out : list string) :
  split_items max_loop seen rest = Ok out ->
  Forall (fun m => (String.length m <= MAX_MESSAGE_LENGTH)%nat) seen ->
  Forall (fun m => (String.length m <= MAX_MESSAGE_LENGTH)%nat) out.
Proof.
  revert seen rest. induction max_loop as [|fuel IH]; intros seen [|m rest]; simpl;
    try done; try (by intros [= <-]).
  destruct (String.length m <=? MAX_MESSAGE_LENGTH)%nat eqn:Hm.
  - intros Hrun Hseen. apply (IH _ _ Hrun).
    apply Forall_app. split; [done|]. apply Forall_singleton.
    by apply Nat.leb_le.
  - apply Nat.leb_gt in Hm.
    destruct (split_item_lengths m) as [Hkept _]; [unfold MAX_MESSAGE_LENGTH in *; lia|].
    destruct (split_item m) as [kept inserted]. cbn [fst] in Hkept.
    intros Hrun Hseen. apply (IH _ _ Hrun).
    apply Forall_app. split; [done|]. by apply Forall_singleton.
Qed.

Lemma join_items_bound (join_str : string) (message split_messages : list string)
    (message_current : string) :
  let bound := (MAX_MESSAGE_LENGTH + String.length join_str)%nat in
  Forall (fun m => (String.length m <= MAX_MESSAGE_LENGTH)%nat) message ->
  Forall (fun m => (String.length m <= bound)%nat) split_messages ->
  (String.length message_current <= bound)%nat ->
  Forall (fun m => (String.length m <= bound)%nat)
    (join_items join_str message split_messages message_current).
Proof.
  intros bound Hmsg. revert split_messages message_current.
  induction Hmsg as [|m message Hm Hmsg IH]; intros acc cur Hacc Hcur; simpl.
  - apply Forall_app. split; [done|]. by apply Forall_singleton.
  - destruct (MAX_MESSAGE_LENGTH
              <? String.length cur + String.length m + String.length join_str)%nat
      eqn:Hflush.
    + apply IH.
      * apply Forall_app. split; [done|]. by apply Forall_singleton.
      * rewrite !string_length_app. simpl. unfold bound. lia.
    + apply Nat.ltb_ge in Hflush. apply IH; [done|].
      rewrite !string_length_app. unfold bound. lia.
Qed.

(** X24.  Whenever [split_message] returns, every message it returns is at
    most [MAX_MESSAGE_LENGTH] characters plus the length of the join string
    long, however long the items were. *)
Theorem split_message_bound (message out : list string) (join_str : string) :
  split_message message join_str = Ok out ->
  Forall (fun m => (String.length m <= MAX_MESSAGE_LENGTH + String.length join_str)%nat)
    out.
Proof.
  unfold split_message.
  destruct (split_items MAX_LOOP [] message) as [message'|e] eqn:Hsplit; [|done].
  intros [= <-]. apply join_items_bound.
  - by apply (split_items_short_out _ _ _ _ Hsplit).
  - done.
  - simpl. lia.
Qed.

Lemma split_items_enough (max_loop : nat) (seen rest : list string) :
  (sum_list (map (fun m => S (String.length m)) rest) <= max_loop)%nat ->
  exists out, split_items max_loop seen rest = Ok out.
Proof.
  revert seen rest. induction max_loop as [|fuel IH]; intros seen [|m rest] Hcost;
    simpl in *; try (by eexists); try lia.
  destruct (String.length m <=? MAX_MESSAGE_LENGTH)%nat eqn:Hm.
  - apply IH. lia.
  - apply Nat.leb_gt in Hm.
    destruct (split_item_lengths m) as [_ Hins]; [unfold MAX_MESSAGE_LENGTH in *; lia|].
    destruct (split_item m) as [kept inserted]. cbn [snd] in Hins.
    apply IH. simpl. lia.
Qed.

(** X25.  The loop safeguard does not fire on an input whose total length
    plus number of items is at most 100000: [split_message] returns. *)
Theorem split_message_returns (message : list string) (join_str : string) :
  (sum_list (map (fun m => S (String.length m)) message) <= MAX_LOOP)%nat ->
  exists out, split_message message join_str = Ok out.
Proof.
  intros Hcost. unfold split_message.
  destruct (split_items_enough MAX_LOOP [] message Hcost) as (message' & ->).
  by eexists.
Qed.

Lemma split_items_exhausted (max_loop : nat) (seen rest : list string) :
  (max_loop < length rest)%nat ->
  split_items max_loop seen rest = Raise RuntimeError.
Proof.
  revert seen rest. induction max_loop as [|fuel IH]; intros seen [|m rest] Hlen;
    simpl in *; try done; try lia.
  destruct (String.length m <=? MAX_MESSAGE_LENGTH)%nat.
  - apply IH. lia.
  - destruct (split_item m) as [kept inserted]. apply IH. simpl. lia.
Qed.

(** X26.  The safeguard counts every pass of the first loop, also the
    passes over items that need no cut: a list of more than 100000 items
    makes [split_message] raise [RuntimeError], however short the items. *)
Theorem split_message_too_many_items (message : list string) (join_str : string) :
  (MAX_LOOP < length message)%nat ->
  split_message message join_str = Raise RuntimeError.
Proof.
  intros Hlen. unfold split_message. by rewrite split_items_exhausted.
Qed.

Lemma split_items_nothing_to_cut (max_loop : nat) (seen rest : list string) :
  Forall (fun m => (String.length m <= MAX_MESSAGE_LENGTH)%nat) rest ->
  (length rest <= max_loop)%nat ->
  split_items max_loop seen rest = Ok (seen ++ rest).
Proof.
  intros Hrest. revert max_loop seen.
  induction Hrest as [|m rest Hm Hrest IH]; intros [|fuel] seen Hlen; simpl in *;
    try (by rewrite app_nil_r); try lia.
  apply Nat.leb_le in Hm. rewrite Hm. rewrite IH by lia.
  by rewrite <- app_assoc.
Qed.

Lemma join_items_text (join_str : string) (message split_messages : list string)
    (message_current : string) :
  fold_right String.append EmptyString
    (join_items join_str message split_messages message_current)
  = fold_right String.append EmptyString split_messages
    +:+ message_current
    +:+ fold_right String.append EmptyString (map (fun m => join_str +:+ m) message).
Proof.
  assert (forall x, x +:+ EmptyString = x) as Hnil.
  { induction x as [|c x IHx]; [done|]. by rewrite string_app_cons, IHx. }
  assert (forall l x, fold_right String.append EmptyString (l ++ [x])
                      = fold_right String.append EmptyString l +:+ x) as Hsnoc.
  { induction l as [|y l IHl]; intros x; simpl.
    - by rewrite Hnil.
    - rewrite IHl. by rewrite string_app_assoc. }
  revert split_messages message_current.
  induction message as [|m message IH]; intros acc cur; simpl.
  - rewrite Hsnoc. by rewrite ?Hnil.
  - destruct (MAX_MESSAGE_LENGTH
              <? String.length cur + String.length m + String.length join_str)%nat.
    + rewrite IH, Hsnoc. by rewrite ?string_app_assoc.
    + rewrite IH. by rewrite ?string_app_assoc.
Qed.

(** X27.  The second loop loses and reorders nothing: the messages that
    [split_message] returns, put end to end, are the items of the list as
    the first loop left it, each preceded by the join string (the first one
    too).  When no item is longer than [MAX_MESSAGE_LENGTH] that list is the
    input itself. *)
Theorem split_message_text (message out : list string) (join_str : string) :
  split_message message join_str = Ok out ->
  exists pieces,
    split_items MAX_LOOP [] message = Ok pieces
    /\ fold_right String.append EmptyString out
       = fold_right String.append EmptyString (map (fun m => join_str +:+ m) pieces)
    /\ (Forall (fun m => (String.length m <= MAX_MESSAGE_LENGTH)%nat) message ->
        pieces = message).
Proof.
  unfold split_message.
  destruct (split_items MAX_LOOP [] message) as [pieces|e] eqn:Hsplit; [|done].
  intros [= <-]. exists pieces. split; [done|]. split.
  - by rewrite join_items_text.
  - intros Hshort.
    destruct (decide (length message <= MAX_LOOP)%nat) as [Hlen|Hlen].
    + rewrite split_items_nothing_to_cut in Hsplit by done. by injection Hsplit as <-.
    + rewrite split_items_exhausted in Hsplit by lia. done.
Qed.

End Messages.


(** * Instances of the theorems on the sample inputs *)

Section Witnesses.
Import Sample.
#[local] Existing Instance Sample.dataclasses.

Lemma get_cached_items_stale_entry_witness :
  (get_cached_items IMAGES false stale_images).1 = Raise RuntimeError
  /\ self (get_cached_items IMAGES false stale_images).2 = self stale_images.
Proof.
  apply (get_cached_items_stale_entry IMAGES stale_images (timedelta_hours 12) 0).
  - vm_compute. repeat constructor.
  - reflexivity.
  - vm_compute. repeat constructor.
  - vm_compute. reflexivity.
Defined.


Lemma get_cached_items_metadata_unset_witness :
  (get_cached_items CACHE_METADATA false (init fresh).2).1 = Raise TypeError.
Proof.
  apply (get_cached_items_metadata_unset (init fresh).2 false).
  left. vm_compute. reflexivity.
Defined.

Lemma get_all_images_refresh_witness :
  exists w' first,
    get_all_images (Ok [image_a; image_b; image_c]) fresh
    = (Ok (map resolve_urls [image_a; image_b; image_c]), w')
    /\ Image_from_obj (resolve_urls image_a) = Ok first
    /\ cached_images (self w')
       = image_entries (clock0 0) [image_a; image_b; image_c]
           (map resolve_urls [image_a; image_b; image_c])
         ++ [(None, (first, clock0 0))]
    /\ last_all_images_cache (self w') = At (clock0 0)
    /\ PyDict.get IMAGES (last_cache_purge (self w')) = Some (clock0 1).
Proof.
  apply (get_all_images_refresh fresh image_a [image_b; image_c]
           (map resolve_urls [image_a; image_b; image_c])).
  - left. reflexivity.
  - simpl. discriminate.
  - reflexivity.
  - vm_compute. repeat constructor; simpl; intros H;
      repeat (apply elem_of_cons in H as [H|H]; [discriminate|]);
      by apply elem_of_nil in H.
  - simpl. repeat constructor.
Defined.



Lemma get_full_episodic_refresh_witness :
  exists w',
    get_full_episodic (Ok chapters_response) fresh = (Ok chapters_value, w')
    /\ cached_records (self w')
       = [("r1", (mkRecord "r1" true, clock0 0)); ("r3", (mkRecord "r3" true, clock0 0))]
    /\ length (cached_records (self w')) = 2%nat
    /\ cached_chapters (self w')
       = Some (chapter_entries chapters_response chapters_value, clock0 0)
    /\ last_full_episodic_cache (self w') = At (clock0 0)
    /\ PyDict.get CHAPTERS (last_cache_purge (self w')) = Some (clock0 1)
    /\ PyDict.get RECORDS (last_cache_purge (self w')) = Some (clock0 2).
Proof.
  apply (get_full_episodic_refresh fresh chapters_response chapters_value).
  - left. reflexivity.
  - simpl. discriminate.
  - reflexivity.
  - repeat constructor.
  - compute_done.
  - compute_done.
Defined.

Lemma fetch_starts_purge_cooldown_witness :
  (purge_cache IMAGES false (get_all_images (Ok [image_a; image_b; image_c]) fresh).2).1
    = Raise (CachePurgeError CACHE_PURGE (Some (clock0 1 + timedelta_hours 1)))
  /\ (purge_cache RECORDS false (get_full_episodic (Ok chapters_response) fresh).2).1
     = Raise (CachePurgeError CACHE_PURGE (Some (clock0 2 + timedelta_hours 1))).
Proof.
  destruct (fetch_starts_purge_cooldown fresh) as [Himages Hepisodic]. split.
  - destruct (Himages [image_a; image_b; image_c]) as [_ Hblocked]; [by left|].
    apply Hblocked; [reflexivity | vm_compute; reflexivity].
  - destruct (Hepisodic chapters_response) as [_ [_ Hblocked]]; [by left|].
    apply Hblocked; [reflexivity | vm_compute; reflexivity].
Defined.



(** The full record contents loaded at start-up survive their purge. *)
Lemma purge_full_record_contents_example :
  let w := (init full_record_contents_saved).2 in
  cached_full_record_contents (self w)
    = Some ([("r1", mkRecordTextObj "title" JNull)], 0)
  /\ cached_full_record_contents (self (purge_cache FULL_RECORD_CONTENTS true w).2)
     = Some ([("r1", mkRecordTextObj "title" JNull)], 0).
Proof. split; vm_compute; reflexivity. Qed.
End Witnesses.

(** * Instances of the further properties *)

Section MoreWitnesses.
Import Sample.
#[local] Existing Instance Sample.dataclasses.
#[local] Existing Instance Sample.fields.

Lemma purge_cache_metadata_rejected_witness :
  purge_cache CACHE_METADATA false fresh
  = (Raise (CachePurgeError INVALID_CACHE None), fresh).
Proof.
  apply (purge_cache_metadata_rejected fresh false). right. reflexivity.
Defined.

Lemma purge_cache_allowed_after_cooldown_witness :
  (purge_cache IMAGES false cooldown_over).1 = Ok tt
  /\ cached_images (self (purge_cache IMAGES false cooldown_over).2) = []
  /\ PyDict.get IMAGES (last_cache_purge (self (purge_cache IMAGES false cooldown_over).2))
     = Some (clock0 1).
Proof.
  destruct (purge_cache_allowed_after_cooldown IMAGES cooldown_over
              (clock0 0 - timedelta_hours 1) (timedelta_hours 1))
    as (w' & Hrun & Hempty & Htime & _).
  - reflexivity.
  - reflexivity.
  - vm_compute. discriminate.
  - rewrite Hrun. split; [reflexivity|]. split; [|exact Htime].
    apply Hempty. discriminate.
Defined.

Lemma purge_cache_frame_witness :
  same_table RECORDS (self (purge_cache IMAGES true cached_record).2) (self cached_record)
  /\ fs (purge_cache IMAGES true cached_record).2 = fs cached_record
  /\ stdout (purge_cache IMAGES true cached_record).2 = stdout cached_record.
Proof.
  apply (purge_cache_frame IMAGES RECORDS true cached_record); discriminate.
Defined.




Lemma save_cache_keeps_backup_witness :
  (save_cache RECORDS bad_timestamp).1 = Ok tt
  /\ text_files (fs (save_cache RECORDS bad_timestamp).2) !! "__apicache__/cache_records.json"
     = Some (Wellformed (DocRecords []))
  /\ text_files (fs (save_cache RECORDS bad_timestamp).2)
       !! "__apicache__/cache_records.json.bak"
     = text_files (fs bad_timestamp) !! "__apicache__/cache_records.json".
Proof.
  destruct (save_cache_keeps_backup RECORDS (DocRecords [])
              (Wellformed (DocRecords [("r1", (record_asdict (mkRecord "r1" true), JNaN))]))
              bad_timestamp)
    as (w' & Hrun & _ & Hfile & Hbak & _).
  - discriminate.
  - discriminate.
  - repeat split; intros; discriminate.
  - reflexivity.
  - vm_compute. reflexivity.
  - rewrite Hrun. split; [reflexivity|]. split; [exact Hfile|].
    etrans; [exact Hbak|]. vm_compute. reflexivity.
Defined.

Lemma load_cache_missing_snapshot_witness :
  load_cache RECORDS fresh = (Ok tt, fresh).
Proof.
  apply (load_cache_missing_snapshot RECORDS fresh). left. vm_compute. reflexivity.
Defined.

Lemma init_without_snapshots_witness :
  init stale_images = (Ok tt, fresh).
Proof.
  apply (init_without_snapshots stale_images).
  intros cache. destruct cache; vm_compute; reflexivity.
Defined.

Lemma init_aborts_on_uncaught_timestamp_witness :
  init string_timestamp = (Raise TypeError, string_timestamp).
Proof.
  apply (init_aborts_on_uncaught_timestamp string_timestamp [] [] (JString "yesterday")
           TypeError).
  - vm_compute. reflexivity.
  - reflexivity.
  - reflexivity.
  - reflexivity.
Defined.

Lemma load_image_contents_skips_missing_files_witness :
  load_cache IMAGE_CONTENTS orphan_index = (Ok tt, orphan_index).
Proof.
  apply (load_image_contents_skips_missing_files [("a", JInt 0)] orphan_index).
  - vm_compute. set_solver.
  - vm_compute. reflexivity.
  - apply Forall_singleton. split; [by exists 0 | vm_compute; reflexivity].
Defined.



Lemma get_all_images_empty_response_witness :
  (get_all_images (Ok []) cached_image).1 = Raise RuntimeError
  /\ cached_images (self (get_all_images (Ok []) cached_image).2) = []
  /\ fs (get_all_images (Ok []) cached_image).2 = fs cached_image.
Proof.
  destruct (get_all_images_empty_response cached_image)
    as (w' & Hrun & Hempty & _ & _ & Hfs).
  - left. reflexivity.
  - rewrite Hrun. split; [reflexivity|]. split; [exact Hempty|exact Hfs].
Defined.

Lemma fresh_metadata_decoded : metadata_decoded (self fresh).
Proof. repeat split; intros; discriminate. Qed.

Lemma get_single_record_request_witness :
  (get_single_record (Ok (record_asdict (mkRecord "r1" true))) "r1" fresh).1
    = Ok (mkRecord "r1" true)
  /\ cached_records
       (self (get_single_record (Ok (record_asdict (mkRecord "r1" true))) "r1" fresh).2)
     = [("r1", (mkRecord "r1" true, clock0 0))].
Proof.
  destruct (get_single_record_request fresh "r1" (record_asdict (mkRecord "r1" true))
              (mkRecord "r1" true))
    as (w' & Hrun & Hself & _).
  - exact I.
  - reflexivity.
  - exact fresh_metadata_decoded.
  - rewrite Hrun. split; [reflexivity|]. cbn [snd]. rewrite Hself. reflexivity.
Defined.

Lemma get_all_news_request_witness :
  (get_all_news (Ok [JString "news"]) fresh).1 = Ok [JString "news"]
  /\ cached_news_items (self (get_all_news (Ok [JString "news"]) fresh).2)
     = Some ([JString "news"], clock0 0).
Proof.
  destruct (get_all_news_request fresh [JString "news"] [JString "news"])
    as (w' & Hrun & Hself & _).
  - exact I.
  - reflexivity.
  - exact fresh_metadata_decoded.
  - rewrite Hrun. split; [reflexivity|]. cbn [snd]. rewrite Hself. reflexivity.
Defined.

Lemma get_single_image_request_witness :
  (get_single_image (Ok image_a) (Some "a") fresh).1
    = Ok (mkImageObj "a" "https://fractalthorns.com/img/a.png"
            "https://fractalthorns.com/thumb/a.png" JNull)
  /\ cached_images (self (get_single_image (Ok image_a) (Some "a") fresh).2)
     = [(Some "a", (mkImageObj "a" "https://fractalthorns.com/img/a.png"
                      "https://fractalthorns.com/thumb/a.png" JNull, clock0 0))].
Proof.
  destruct (get_single_image_request fresh "a" image_a
              (mkImageObj "a" "https://fractalthorns.com/img/a.png"
                 "https://fractalthorns.com/thumb/a.png" JNull))
    as (w' & Hrun & Hself & _).
  - exact I.
  - reflexivity.
  - exact fresh_metadata_decoded.
  - rewrite Hrun. split; [reflexivity|]. cbn [snd]. rewrite Hself. reflexivity.
Defined.

Lemma get_single_image_default_witness :
  (get_single_image (Ok image_a) None fresh).1 = Ok (resolve_urls image_a)
  /\ cached_images (self (get_single_image (Ok image_a) None fresh).2)
     = [(None, (resolve_urls image_a, clock0 0));
        (Some "a", (resolve_urls image_a, clock0 1))].
Proof.
  destruct (get_single_image_default fresh image_a (resolve_urls image_a))
    as (w' & Hrun & Hself & _).
  - exact I.
  - reflexivity.
  - exact fresh_metadata_decoded.
  - rewrite Hrun. split; [reflexivity|]. cbn [snd]. rewrite Hself. reflexivity.
Defined.

Lemma get_image_description_request_witness :
  (get_image_description (Ok description_response) (Raise ClientError) "a" cached_image).1
    = Ok (JObject [("description", JString "a picture"); ("title", JNull)])
  /\ PyDict.keys
       (cached_image_descriptions
          (self (get_image_description (Ok description_response) (Raise ClientError)
                   "a" cached_image).2))
     = ["a"].
Proof.
  destruct (get_image_description_request cached_image (tick cached_image) "a"
              description_response (Raise ClientError) image_a
              (JObject [("description", JString "a picture"); ("title", JNull)]))
    as (w' & Hrun & Hself & _).
  - exact I.
  - reflexivity.
  - reflexivity.
  - repeat split; intros; discriminate.
  - rewrite Hrun. split; [reflexivity|]. cbn [snd]. rewrite Hself. reflexivity.
Defined.

Lemma get_single_record_then_cached_witness :
  get_single_record (Raise ClientError) "r1"
    (get_single_record (Ok (record_asdict (mkRecord "r1" true))) "r1" fresh).2
  = (Ok (mkRecord "r1" true),
     tick (get_single_record (Ok (record_asdict (mkRecord "r1" true))) "r1" fresh).2).
Proof.
  apply (get_single_record_then_cached fresh "r1" (record_asdict (mkRecord "r1" true))
           (mkRecord "r1" true) (Raise ClientError)).
  - exact I.
  - reflexivity.
  - exact fresh_metadata_decoded.
  - vm_compute. discriminate.
Defined.

Lemma get_single_image_default_then_named_witness :
  get_single_image (Raise ClientError) (Some (Image_name (resolve_urls image_a)))
    (get_single_image (Ok image_a) None fresh).2
  = (Ok (resolve_urls image_a), tick (get_single_image (Ok image_a) None fresh).2).
Proof.
  apply (get_single_image_default_then_named fresh image_a (resolve_urls image_a)
           (Raise ClientError)).
  - exact I.
  - reflexivity.
  - exact fresh_metadata_decoded.
  - vm_compute. discriminate.
Defined.

Lemma split_message_bound_witness :
  Forall (fun m => (String.length m <= MAX_MESSAGE_LENGTH + 1)%nat)
    (join_items "," [slice_to 1949 long_item +:+ "-"; slice_from 1949 long_item]
       [] EmptyString).
Proof.
  apply (split_message_bound [long_item] _ ","). vm_compute. reflexivity.
Defined.

Lemma split_message_returns_witness :
  exists out, split_message ["hello"; "world"] "," = Ok out.
Proof.
  apply (split_message_returns ["hello"; "world"] ",").
  apply Nat.leb_le. vm_compute. reflexivity.
Defined.

Lemma split_message_too_many_items_witness :
  split_message many_items "," = Raise RuntimeError.
Proof.
  apply (split_message_too_many_items many_items ",").
  apply Nat.ltb_lt. vm_compute. reflexivity.
Defined.

Lemma split_message_text_witness :
  exists pieces,
    split_items MAX_LOOP [] ["hello"; "world"] = Ok pieces
    /\ fold_right String.append EmptyString [",hello,world"]
       = fold_right String.append EmptyString (map (fun m => "," +:+ m) pieces)
    /\ (Forall (fun m => (String.length m <= MAX_MESSAGE_LENGTH)%nat) ["hello"; "world"] ->
        pieces = ["hello"; "world"]).
Proof.
  apply (split_message_text ["hello"; "world"] [",hello,world"] ",").
  vm_compute. reflexivity.
Defined.

End MoreWitnesses.
